(** * Affiliate content quality orchestrator: the scoring engine and the
      schema-validation wrapper of [affiliate_ai_quality/src/orchestrator.py]

    The Python functions are embedded as Rocq functions over a model of the
    values [json.load] produces.  Exceptions are results of an error monad,
    the two reads of the wall clock are inputs, and the error stream is a
    list of lines that is threaded through [validate_input]. *)

From Stdlib Require Import ZArith QArith Ascii String.
From stdpp Require Import gmap strings list fin_maps.

Set Warnings "-register-all".
Local Open Scope Z_scope.

(** ** Python values *)

(** A Python [str] is a sequence of Unicode code points; [len] counts them. *)
Definition pystr := list N.

(** A string literal of the source (all of them are ASCII). *)
Definition py (s : string) : pystr := N_of_ascii <$> list_ascii_of_string s.

(** What [json.load] returns: [None], [bool], [int], [float], [str], [list]
    and [dict] with [str] keys.  A finite [float] is kept as the rational
    it denotes; the code never computes with one. *)
Inductive json :=
  | JNull
  | JBool (b : bool)
  | JInt (z : Z)
  | JFloat (q : Q)
  | JStr (s : list N)
  | JList (l : list json)
  | JObj (m : gmap (list N) json).

(** The exceptions that the modelled code can meet. *)
Inductive exn :=
  | AttributeError
  | TypeError
  | KeyError (key : pystr)
  | ValidationError (message : pystr)
  | SchemaError (message : pystr).

Inductive result (A : Type) :=
  | Ok (a : A)
  | Raise (e : exn).
Arguments Ok {A} a.
Arguments Raise {A} e.

#[global] Instance result_ret : MRet result := λ A a, Ok a.
#[global] Instance result_bind : MBind result := λ A B f c,
  match c with
  | Ok a => f a
  | Raise e => Raise e
  end.

Definition returns {A} (c : result A) : Prop := ∃ a, c = Ok a.

Module Py.

(** [len(v)]: defined on [str], [list] and [dict]; a [TypeError] on
    [None], [bool], [int] and [float]. *)
Definition len (v : json) : result Z :=
  match v with
  | JStr s => Ok (Z.of_nat (length s))
  | JList l => Ok (Z.of_nat (length l))
  | JObj m => Ok (Z.of_nat (size m))
  | _ => Raise TypeError
  end.

(** [v.get(key, default)]: only a [dict] has the method; the default is
    used only when the key is missing, not when its value is [None]. *)
Definition get (v : json) (key : pystr) (fallback : json) : result json :=
  match v with
  | JObj m => Ok (default fallback (m !! key))
  | _ => Raise AttributeError
  end.

(** [v[key]] with a [str] key: a lookup in a [dict] ([KeyError] when
    missing), a [TypeError] on everything else. *)
Definition getitem (v : json) (key : pystr) : result json :=
  match v with
  | JObj m =>
      match m !! key with
      | Some x => Ok x
      | None => Raise (KeyError key)
      end
  | _ => Raise TypeError
  end.

(** [for x in v]: the elements of a [list], the one-character strings of
    a [str], the keys of a [dict] (in the map's order; every use below
    fails on the first key whatever the order). *)
Definition iter (v : json) : result (list json) :=
  match v with
  | JList l => Ok l
  | JStr s => Ok ((λ c, JStr [c]) <$> s)
  | JObj m => Ok (JStr <$> (map_to_list m).*1)
  | _ => Raise TypeError
  end.

(** [[f(x) for x in xs]]: left to right, the first exception ends it. *)
Fixpoint comprehension {A B} (f : A → result B) (xs : list A) : result (list B) :=
  match xs with
  | [] => Ok []
  | x :: xs' =>
      y ← f x;
      ys ← comprehension f xs';
      Ok (y :: ys)
  end.

End Py.

(** ** The wall clock *)

Record datetime := {
  year : N; month : N; day : N;
  hour : N; minute : N; second : N;
  microsecond : N
}.

(** The last [width] decimal digits of [n], zero padded. *)
Fixpoint digits (width : nat) (n : N) : pystr :=
  match width with
  | O => []
  | S w => digits w (n / 10)%N ++ [(48 + n mod 10)%N]
  end.

(** [strftime('%Y%m%d%H%M%S')], for the four-digit years [now()] gives. *)
Definition strftime_YmdHMS (t : datetime) : pystr :=
  digits 4 (year t) ++ digits 2 (month t) ++ digits 2 (day t) ++
  digits 2 (hour t) ++ digits 2 (minute t) ++ digits 2 (second t).

(** [isoformat()]: the fraction is printed only when it is not zero. *)
Definition isoformat (t : datetime) : pystr :=
  digits 4 (year t) ++ py "-" ++ digits 2 (month t) ++ py "-" ++
  digits 2 (day t) ++ py "T" ++ digits 2 (hour t) ++ py ":" ++
  digits 2 (minute t) ++ py ":" ++ digits 2 (second t) ++
  (if (microsecond t =? 0)%N then [] else py "." ++ digits 6 (microsecond t)).

(** [create_audit_id], at the clock reading [now]. *)
Definition create_audit_id (now : datetime) : pystr :=
  py "audit_" ++ strftime_YmdHMS now.

(** ** The audit report *)

Inductive Grade := ELITE | EXCELLENT | GOOD | FAIR | POOR.

#[global] Instance Grade_eq_dec : EqDecision Grade.
Proof. solve_decision. Defined.

Definition grade_str (g : Grade) : pystr :=
  match g with
  | ELITE => py "ELITE"
  | EXCELLENT => py "EXCELLENT"
  | GOOD => py "GOOD"
  | FAIR => py "FAIR"
  | POOR => py "POOR"
  end.

Inductive Severity := minor | moderate | critical.
Inductive LinkStatus := valid | invalid | redirect | timeout.

Record OverallScore := {
  total : Z;
  grade : Grade;
  auto_publish_eligible : bool
}.

Record DetailedScores := {
  seo_optimization : Z;
  content_quality : Z;
  affiliate_integration : Z;
  link_validity : Z;
  user_value : Z;
  compliance : Z;
  conversion_potential : Z;
  technical_quality : Z
}.

Record Improvement := {
  category : pystr;
  severity : Severity;
  description : pystr;
  impact_points : Z
}.

Record LinkValidation := {
  original_url : json;
  status : LinkStatus;
  redirect_count : Z;
  response_time_ms : Z
}.

Record Metadata := {
  evaluator_version : pystr;
  processing_time_seconds : Q;
  ai_model_used : pystr;
  content_length : Z
}.

Record AuditReport := {
  audit_id : pystr;
  timestamp : pystr;
  overall_score : OverallScore;
  detailed_scores : DetailedScores;
  improvements : list Improvement;
  link_validation_results : list LinkValidation;
  metadata : Metadata
}.

(** ** The scoring engine *)

(** The [if]/[elif] chain of [mock_evaluate_content]. *)
Definition grade_of (total_score : Z) : Grade :=
  if total_score >=? 114 then ELITE
  else if total_score >=? 100 then EXCELLENT
  else if total_score >=? 80 then GOOD
  else if total_score >=? 60 then FAIR
  else POOR.

(** One element of the [link_validation_results] comprehension. *)
Definition validate_link (link : json) : result LinkValidation :=
  url ← Py.getitem link (py "url");
  Ok {| original_url := url;
        status := valid;
        redirect_count := 0;
        response_time_ms := 250 |}.

(** [mock_evaluate_content(input_data)]; [now_id] and [now_ts] are what the
    two calls of [datetime.now()] return. *)
Definition mock_evaluate_content (now_id now_ts : datetime) (input_data : json)
  : result AuditReport :=
  content ← Py.get input_data (py "content") (JObj ∅);
  body ← Py.get content (py "body") (JStr []);
  content_length ← Py.len body;
  asp_links ← Py.get input_data (py "asp_links") (JList []);
  asp_links_count ← Py.len asp_links;
  let base_score := Z.min 80 (content_length `div` 20) in
  let link_score := Z.min 20 (asp_links_count * 5) in
  let total_score := base_score + link_score in
  let grade := grade_of total_score in
  asp_links' ← Py.get input_data (py "asp_links") (JList []);
  links ← Py.iter asp_links';
  results ← Py.comprehension validate_link links;
  Ok {| audit_id := create_audit_id now_id;
        timestamp := isoformat now_ts;
        overall_score :=
          {| total := total_score;
             grade := grade;
             auto_publish_eligible := total_score >=? 114 |};
        detailed_scores :=
          {| seo_optimization := Z.min 15 (total_score `div` 8);
             content_quality := Z.min 20 (content_length `div` 50);
             affiliate_integration := Z.min 20 (asp_links_count * 4);
             link_validity := Z.min 15 (asp_links_count * 3);
             user_value := Z.min 20 (content_length `div` 40);
             compliance := 8;
             conversion_potential := Z.min 15 (asp_links_count * 3);
             technical_quality := 4 |};
        improvements :=
          [ {| category := py "seo";
               severity := minor;
               description := py "Consider adding more targeted keywords";
               impact_points := 3 |} ];
        link_validation_results := results;
        metadata :=
          {| evaluator_version := py "1.0.0";
             processing_time_seconds := 12 # 10;
             ai_model_used := py "mock-evaluator";
             content_length := content_length |} |}.

(** ** The schema validator *)

(** What a call of [validate_input] leaves: its answer, the two objects it
    was given (Python passes them by reference) and the error stream. *)
Record Validated := {
  answer : result bool;
  data_after : json;
  schema_after : json;
  stderr_after : list pystr
}.

Section Validator.

(** [jsonschema.validate(instance=..., schema=...)] of the third-party
    package: it returns nothing or raises, and leaves the instance and the
    schema in some state (second and third component). *)
Variable jsonschema_validate : json → json → result unit * json * json.

(** [validate_input(data, schema)]; [stderr] holds the lines printed to the
    error stream so far.  Only [jsonschema.ValidationError] is caught. *)
Definition validate_input (data schema : json) (stderr : list pystr)
  : Validated :=
  let '(outcome, data', schema') := jsonschema_validate data schema in
  match outcome with
  | Ok _ =>
      {| answer := Ok true;
         data_after := data'; schema_after := schema';
         stderr_after := stderr |}
  | Raise (ValidationError message) =>
      {| answer := Ok false;
         data_after := data'; schema_after := schema';
         stderr_after := stderr ++ [py "Input validation error: " ++ message] |}
  | Raise e =>
      {| answer := Raise e;
         data_after := data'; schema_after := schema';
         stderr_after := stderr |}
  end.

End Validator.

(** ** The input document, as the data model describes it *)

(** The [url] of a link entry. *)
Definition link_url (link : json) : option json :=
  match link with
  | JObj m => m !! py "url"
  | _ => None
  end.

(** The body the engine scores: [content.body] when it is a string, the
    empty string when [content] or [content.body] is missing.  Undefined
    when [content] is not an object or the body is not a string. *)
Definition body_of (document : json) : option pystr :=
  match document with
  | JObj m =>
      match m !! py "content" with
      | None => Some []
      | Some (JObj c) =>
          match c !! py "body" with
          | None => Some []
          | Some (JStr s) => Some s
          | Some _ => None
          end
      | Some _ => None
      end
  | _ => None
  end.

(** The links the engine counts: [asp_links] when it is a sequence of
    objects that all have a [url], no link when the key is missing. *)
Definition links_of (document : json) : option (list json) :=
  match document with
  | JObj m =>
      match m !! py "asp_links" with
      | None => Some []
      | Some (JList l) =>
          if forallb (λ link, bool_decide (is_Some (link_url link))) l
          then Some l else None
      | Some _ => None
      end
  | _ => None
  end.

(** [content.body] is absent: [content] is missing, or is an object without
    a [body]. *)
Definition body_absent (document : json) : bool :=
  match document with
  | JObj m =>
      match m !! py "content" with
      | None => true
      | Some (JObj c) => bool_decide (c !! py "body" = None)
      | Some _ => false
      end
  | _ => false
  end.

(** The document with [content.body] set to [s]. *)
Definition with_body (s : pystr) (document : json) : json :=
  match document with
  | JObj m =>
      let c := match m !! py "content" with
               | Some (JObj c) => c
               | _ => ∅
               end in
      JObj (<[py "content" := JObj (<[py "body" := JStr s]> c)]> m)
  | _ => document
  end.

(** ** The grade table, as the specification words it *)

Definition grade_thresholds : list (Z * Grade) :=
  [ (114, ELITE); (100, EXCELLENT); (80, GOOD); (60, FAIR) ].

(** Highest first, the first threshold that the total reaches wins. *)
Fixpoint first_match (table : list (Z * Grade)) (t : Z) : Grade :=
  match table with
  | [] => POOR
  | (threshold, g) :: rest =>
      if bool_decide (threshold ≤ t) then g else first_match rest t
  end.

Definition table_grade (t : Z) : Grade := first_match grade_thresholds t.

(** ** The report, seen from the document *)

(** What the comprehension makes of one link. *)
Definition link_checked (link : json) (entry : LinkValidation) : Prop :=
  link_url link = Some (original_url entry) ∧
  status entry = valid ∧ redirect_count entry = 0 ∧ response_time_ms entry = 250.

(** The scores of a report computed from a body of [n] characters and [k]
    links. *)
Definition scored (n k : Z) (r : AuditReport) : Prop :=
  let t := Z.min 80 (n `div` 20) + Z.min 20 (k * 5) in
  overall_score r =
    {| total := t; grade := grade_of t; auto_publish_eligible := t >=? 114 |} ∧
  detailed_scores r =
    {| seo_optimization := Z.min 15 (t `div` 8);
       content_quality := Z.min 20 (n `div` 50);
       affiliate_integration := Z.min 20 (k * 4);
       link_validity := Z.min 15 (k * 3);
       user_value := Z.min 20 (n `div` 40);
       compliance := 8;
       conversion_potential := Z.min 15 (k * 3);
       technical_quality := 4 |} ∧
  content_length (metadata r) = n.

(** ** Sample documents *)

Definition sample_meta : json :=
  JObj (<[py "target_keyword" := JStr (py "test")]>
       (<[py "product_category" := JStr (py "electronics")]>
       (<[py "asp_provider" := JStr (py "amazon")]> ∅))).

Definition sample_link (url : string) : json :=
  JObj (<[py "url" := JStr (py url)]>
       (<[py "product_name" := JStr (py "test")]>
       (<[py "priority" := JInt 1]> ∅))).

(** A document with a body of [n] characters and the given links. *)
Definition sample_document (n : nat) (links : list json) : json :=
  JObj (<[py "content" :=
            JObj (<[py "title" := JStr (py "T")]>
                 (<[py "body" := JStr (replicate n 120%N)]>
                 (<[py "meta" := sample_meta]> ∅)))]>
       (<[py "asp_links" := JList links]> ∅)).

Definition sample_now : datetime :=
  {| year := 2024; month := 3; day := 9;
     hour := 14; minute := 5; second := 7; microsecond := 0 |}.

(** ** What the engine reads of its input *)

(** The first statement of [mock_evaluate_content]: the length of the body. *)
Definition read_length (input_data : json) : result Z :=
  content ← Py.get input_data (py "content") (JObj ∅);
  body ← Py.get content (py "body") (JStr []);
  Py.len body.

(** Its second statement: the number of links. *)
Definition read_count (input_data : json) : result Z :=
  asp_links ← Py.get input_data (py "asp_links") (JList []);
  Py.len asp_links.

(** The comprehension that fills [link_validation_results]. *)
Definition read_entries (input_data : json) : result (list LinkValidation) :=
  asp_links ← Py.get input_data (py "asp_links") (JList []);
  links ← Py.iter asp_links;
  Py.comprehension validate_link links.

(** The values that have a [len]. *)
Definition sized (v : json) : bool :=
  match v with
  | JStr _ | JList _ | JObj _ => true
  | _ => false
  end.

(** The inputs on which [mock_evaluate_content] returns: an object whose
    [content], when present, is an object whose [body], when present, has a
    length, and whose [asp_links], when present, is a sequence of objects
    with a [url], or an empty string or an empty object. *)
Definition evaluable (input_data : json) : bool :=
  match input_data with
  | JObj m =>
      match m !! py "content" with
      | None => true
      | Some (JObj c) =>
          match c !! py "body" with
          | None => true
          | Some b => sized b
          end
      | Some _ => false
      end
      &&
      match m !! py "asp_links" with
      | None => true
      | Some (JList l) =>
          forallb (λ link, bool_decide (is_Some (link_url link))) l
      | Some (JStr s) => bool_decide (s = [])
      | Some (JObj a) => bool_decide (a = ∅)
      | Some _ => false
      end
  | _ => false
  end.

(** The entry the comprehension makes for a link with the given [url]. *)
Definition entry_of (url : json) : LinkValidation :=
  {| original_url := url; status := valid;
     redirect_count := 0; response_time_ms := 250 |}.

(** The sum of the eight detailed scores. *)
Definition detailed_sum (s : DetailedScores) : Z :=
  seo_optimization s + content_quality s + affiliate_integration s +
  link_validity s + user_value s + compliance s + conversion_potential s +
  technical_quality s.

(** The clock readings [datetime.now()] gives: a year of four digits and
    fields within their ranges. *)
Definition plausible (t : datetime) : Prop :=
  (1000 ≤ year t ≤ 9999)%N ∧ (1 ≤ month t ≤ 12)%N ∧ (1 ≤ day t ≤ 31)%N ∧
  (hour t < 24)%N ∧ (minute t < 60)%N ∧ (second t < 60)%N ∧
  (microsecond t < 1000000)%N.

(** An ASCII decimal digit. *)
Definition is_digit (c : N) : Prop := (48 ≤ c ≤ 57)%N.

(** ** The report as the dictionary the engine returns *)

Definition severity_str (s : Severity) : pystr :=
  match s with
  | minor => py "minor"
  | moderate => py "moderate"
  | critical => py "critical"
  end.

Definition status_str (s : LinkStatus) : pystr :=
  match s with
  | valid => py "valid"
  | invalid => py "invalid"
  | redirect => py "redirect"
  | timeout => py "timeout"
  end.

Definition improvement_json (i : Improvement) : json :=
  JObj (<[py "category" := JStr (category i)]>
       (<[py "severity" := JStr (severity_str (severity i))]>
       (<[py "description" := JStr (description i)]>
       (<[py "impact_points" := JInt (impact_points i)]> ∅)))).

Definition link_validation_json (l : LinkValidation) : json :=
  JObj (<[py "original_url" := original_url l]>
       (<[py "status" := JStr (status_str (status l))]>
       (<[py "redirect_count" := JInt (redirect_count l)]>
       (<[py "response_time_ms" := JInt (response_time_ms l)]> ∅)))).

(** The dictionary literal that [mock_evaluate_content] returns. *)
Definition report_json (r : AuditReport) : json :=
  JObj (<[py "audit_id" := JStr (audit_id r)]>
       (<[py "timestamp" := JStr (timestamp r)]>
       (<[py "overall_score" :=
            JObj (<[py "total" := JInt (total (overall_score r))]>
                 (<[py "grade" := JStr (grade_str (grade (overall_score r)))]>
                 (<[py "auto_publish_eligible" :=
                      JBool (auto_publish_eligible (overall_score r))]> ∅)))]>
       (<[py "detailed_scores" :=
            let s := detailed_scores r in
            JObj (<[py "seo_optimization" := JInt (seo_optimization s)]>
                 (<[py "content_quality" := JInt (content_quality s)]>
                 (<[py "affiliate_integration" := JInt (affiliate_integration s)]>
                 (<[py "link_validity" := JInt (link_validity s)]>
                 (<[py "user_value" := JInt (user_value s)]>
                 (<[py "compliance" := JInt (compliance s)]>
                 (<[py "conversion_potential" := JInt (conversion_potential s)]>
                 (<[py "technical_quality" := JInt (technical_quality s)]> ∅))))))))]>
       (<[py "improvements" := JList (improvement_json <$> improvements r)]>
       (<[py "link_validation_results" :=
            JList (link_validation_json <$> link_validation_results r)]>
       (<[py "metadata" :=
            let md := metadata r in
            JObj (<[py "evaluator_version" := JStr (evaluator_version md)]>
                 (<[py "processing_time_seconds" :=
                      JFloat (processing_time_seconds md)]>
                 (<[py "ai_model_used" := JStr (ai_model_used md)]>
                 (<[py "content_length" := JInt (content_length md)]> ∅))))]>
        ∅))))))).

(** ** The command line driver *)

(** The parsed arguments: [--input], [--output], [--verbose] and
    [--validate-only]. *)
Record Args := {
  arg_input : pystr;
  arg_output : option pystr;
  arg_verbose : bool;
  arg_validate_only : bool
}.

(** What [with open(path, 'r') as f: json.load(f)] does: it gives the parsed
    value, or raises one of the two exceptions the callers catch (with the
    text [str(e)] gives), or raises something else. *)
Inductive Loaded :=
  | LoadedJson (j : json)
  | FileNotFoundError (message : pystr)
  | JSONDecodeError (message : pystr)
  | LoadError (name : pystr).

(** What [parser.parse_args()] does with the command line: it gives the
    arguments, or (for [-h] and [--help]) writes the help text to standard
    output and exits with status 0, or (for a command line it cannot parse,
    such as one without [--input]) writes the usage and then the error
    message to the error stream and exits with status 2. *)
Inductive CommandLine :=
  | Parsed (args : Args)
  | HelpRequested (help : pystr)
  | Unparsable (usage message : pystr).

(** What a run of [main] meets outside the program: the two schema paths;
    the file system as far as it is read and opened for writing; the
    [jsonschema] and [json] functions; the clock.  [dump_raises] tells when
    [json.dump] raises after the file has been opened (a lone surrogate in a
    url cannot be encoded), with the text that has reached the file by then;
    [print_raises] tells when [print(json.dumps(...))] raises, which leaves
    standard output as it was. *)
Record World := {
  input_schema_path : pystr;
  output_schema_path : pystr;
  load_json : pystr → Loaded;
  open_for_writing : pystr → option pystr;
  jsonschema_validate : json → json → result unit * json * json;
  json_dumps : json → pystr;
  dump_raises : json → option (pystr * pystr);
  print_raises : json → option pystr;
  clock_id : datetime;
  clock_ts : datetime
}.

(** What a run has printed and written so far. *)
Record Console := {
  stdout : list pystr;
  stderr : list pystr;
  files : list (pystr * pystr)
}.

(** How a run ends when it does not return: [sys.exit(code)], or an
    exception that nothing catches. *)
Inductive Halt :=
  | SystemExit (code : Z)
  | Uncaught (e : exn)
  | UncaughtOther (name : pystr).

Inductive Outcome (A : Type) :=
  | Done (a : A)
  | Halted (h : Halt).
Arguments Done {A} a.
Arguments Halted {A} h.

Definition Run (A : Type) : Type := Console → Outcome A * Console.

#[global] Instance run_ret : MRet Run := λ A a c, (Done a, c).
#[global] Instance run_bind : MBind Run := λ A B f m c,
  match m c with
  | (Done a, c') => f a c'
  | (Halted h, c') => (Halted h, c')
  end.

(** [print(line)]. *)
Definition print (line : pystr) : Run unit := λ c,
  (Done (), {| stdout := stdout c ++ [line]; stderr := stderr c;
               files := files c |}).

(** [print(line, file=sys.stderr)]. *)
Definition eprint (line : pystr) : Run unit := λ c,
  (Done (), {| stdout := stdout c; stderr := stderr c ++ [line];
               files := files c |}).

Definition sys_exit {A} (code : Z) : Run A := λ c, (Halted (SystemExit code), c).

Definition uncaught {A} (h : Halt) : Run A := λ c, (Halted h, c).

(** [if flag: body]. *)
Definition when (flag : bool) (body : Run unit) : Run unit :=
  if flag then body else mret ().

(** [load_schema(schema_path)]. *)
Definition load_schema (w : World) (schema_path : pystr) : Run json :=
  match load_json w schema_path with
  | LoadedJson j => mret j
  | FileNotFoundError e | JSONDecodeError e =>
      eprint (py "Error loading schema " ++ schema_path ++ py ": " ++ e);;
      sys_exit 1
  | LoadError name => uncaught (UncaughtOther name)
  end.

(** The call [validate_input(input_data, input_schema)] within a run; the
    second component is [input_data] as the call leaves it. *)
Definition call_validate_input (w : World) (data schema : json)
  : Run (bool * json) := λ c,
  let v := validate_input (jsonschema_validate w) data schema (stderr c) in
  let c' := {| stdout := stdout c; stderr := stderr_after v;
               files := files c |} in
  match answer v with
  | Ok b => (Done (b, data_after v), c')
  | Raise e => (Halted (Uncaught e), c')
  end.

(** [with open(path, 'w') as f: json.dump(result, f, ...)]: when [open]
    raises there is no file; once it has returned the file exists, and it
    holds the whole text, or what had been written when [json.dump] raised. *)
Definition write_file (w : World) (path : pystr) (result : json) : Run unit :=
  λ c,
  match open_for_writing w path with
  | Some name => (Halted (UncaughtOther name), c)
  | None =>
      match dump_raises w result with
      | None =>
          (Done (), {| stdout := stdout c; stderr := stderr c;
                       files := files c ++ [(path, json_dumps w result)] |})
      | Some (written, name) =>
          (Halted (UncaughtOther name),
           {| stdout := stdout c; stderr := stderr c;
              files := files c ++ [(path, written)] |})
      end
  end.

(** [print(json.dumps(result, ...))]. *)
Definition print_report (w : World) (result : json) : Run unit := λ c,
  match print_raises w result with
  | Some name => (Halted (UncaughtOther name), c)
  | None => print (json_dumps w result) c
  end.

(** [main()]; [command_line] is what [parser.parse_args()] does. *)
Definition main (w : World) (command_line : CommandLine) : Run unit :=
  match command_line with
  | HelpRequested help => print help;; sys_exit 0
  | Unparsable usage message => eprint usage;; eprint message;; sys_exit 2
  | Parsed args =>
  when (arg_verbose args)
    (eprint (py "Loading input schema from: " ++ input_schema_path w);;
     eprint (py "Loading output schema from: " ++ output_schema_path w));;
  input_schema ← load_schema w (input_schema_path w);
  output_schema ← load_schema w (output_schema_path w);
  input_data ←
    match load_json w (arg_input args) with
    | LoadedJson j => mret j
    | FileNotFoundError e | JSONDecodeError e =>
        eprint (py "Error loading input file: " ++ e);;
        sys_exit 1
    | LoadError name => uncaught (UncaughtOther name)
    end;
  checked ← call_validate_input w input_data input_schema;
  if negb checked.1 then sys_exit 1
  else
    when (arg_verbose args) (eprint (py "Input validation passed"));;
    if arg_validate_only args
    then print (py "Validation complete - input is valid")
    else
      when (arg_verbose args) (eprint (py "Starting content evaluation..."));;
      result ←
        match mock_evaluate_content (clock_id w) (clock_ts w) checked.2 with
        | Ok r => mret (report_json r)
        | Raise e => uncaught (Uncaught e)
        end;
      result' ←
        match jsonschema_validate w result output_schema with
        | (Ok _, result', _) =>
            when (arg_verbose args) (eprint (py "Output validation passed"));;
            mret result'
        | (Raise (ValidationError message), _, _) =>
            eprint (py "Output validation error: " ++ message);;
            sys_exit 1
        | (Raise e, _, _) => uncaught (Uncaught e)
        end;
      match arg_output args with
      | Some (ch :: path) =>
          write_file w (ch :: path) result';;
          when (arg_verbose args)
            (eprint (py "Results written to: " ++ ch :: path))
      | _ => print_report w result'
      end
  end.

(** A stand-in for the package in sample runs: it accepts every instance
    under every schema and writes to neither. *)
Definition accept_everything (instance schema : json)
  : result unit * json * json :=
  (Ok (), instance, schema).

(** A world with one input file; every other path holds the schema. *)
Definition sample_world (schema input : Loaded) : World :=
  {| input_schema_path := py "docs/audit_input_schema.json";
     output_schema_path := py "docs/audit_output_schema.json";
     load_json := λ path, if decide (path = py "input.json") then input else schema;
     open_for_writing := λ _, None;
     jsonschema_validate := accept_everything;
     json_dumps := λ _, py "{}";
     dump_raises := λ _, None;
     print_raises := λ _, None;
     clock_id := sample_now;
     clock_ts := sample_now |}.

Definition sample_args (validate_only : bool) : Args :=
  {| arg_input := py "input.json"; arg_output := None;
     arg_verbose := false; arg_validate_only := validate_only |}.

Definition empty_console : Console :=
  {| stdout := []; stderr := []; files := [] |}.

(** * Properties *)

(** ** The error monad *)

Lemma bind_Ok {A B} (f : A → result B) (a : A) : (Ok a ≫= f) = f a.
Proof. reflexivity. Qed.

Lemma bind_returns {A B} (f : A → result B) (c : result A) (b : B) :
  (c ≫= f) = Ok b → ∃ a, c = Ok a ∧ f a = Ok b.
Proof. destruct c as [a|e]; [eauto | discriminate]. Qed.

Lemma returns_Ok {A} (a : A) : returns (Ok a).
Proof. by exists a. Qed.

Lemma not_returns_Raise {A} (e : exn) : ¬ returns (@Raise A e).
Proof. by intros [a Ha]. Qed.

(** Take the next bound computation of a hypothesis [H : (c ≫= f) = Ok b]
    apart. *)
Ltac step H x Hx :=
  apply bind_returns in H; destruct H as (x & Hx & H).

(** ** Python primitives *)

Lemma len_nonneg v n : Py.len v = Ok n → 0 ≤ n.
Proof. destruct v; simpl; intros [= <-]; lia. Qed.

Lemma get_of_object m key fallback :
  Py.get (JObj m) key fallback = Ok (default fallback (m !! key)).
Proof. reflexivity. Qed.

(** ** Audit ids *)

Lemma length_digits width n : length (digits width n) = width.
Proof.
  revert n. induction width as [|w IH]; intros n; simpl; [done|].
  rewrite length_app, IH. simpl. lia.
Qed.

(** The literal prefix and fourteen digits. *)
Lemma create_audit_id_length now : length (create_audit_id now) = 20%nat.
Proof.
  unfold create_audit_id, strftime_YmdHMS.
  rewrite !length_app, !length_digits. reflexivity.
Qed.

Lemma create_audit_id_prefix now : py "audit_" `prefix_of` create_audit_id now.
Proof. by apply prefix_app_r. Qed.

Example create_audit_id_sample :
  create_audit_id sample_now = py "audit_20240309140507".
Proof. reflexivity. Qed.

Example isoformat_sample : isoformat sample_now = py "2024-03-09T14:05:07".
Proof. reflexivity. Qed.

(** ** The placeholder arithmetic *)

Lemma base_score_range n : 0 ≤ n → 0 ≤ Z.min 80 (n `div` 20) ≤ 80.
Proof. intros Hn. pose proof (Z.div_pos n 20 Hn ltac:(lia)). lia. Qed.

Lemma link_score_range k : 0 ≤ k → 0 ≤ Z.min 20 (k * 5) ≤ 20.
Proof. lia. Qed.

Lemma base_score_mono n n' :
  n ≤ n' → Z.min 80 (n `div` 20) ≤ Z.min 80 (n' `div` 20).
Proof.
  intros Hn. apply Z.min_le_compat_l. apply Z.div_le_mono; lia.
Qed.

Lemma grade_of_cases t :
  (114 ≤ t ∧ grade_of t = ELITE) ∨
  (100 ≤ t < 114 ∧ grade_of t = EXCELLENT) ∨
  (80 ≤ t < 100 ∧ grade_of t = GOOD) ∨
  (60 ≤ t < 80 ∧ grade_of t = FAIR) ∨
  (t < 60 ∧ grade_of t = POOR).
Proof.
  unfold grade_of.
  destruct (Z.geb_spec t 114); [auto with lia|].
  destruct (Z.geb_spec t 100); [auto 6 with lia|].
  destruct (Z.geb_spec t 80); [auto 7 with lia|].
  destruct (Z.geb_spec t 60); auto 8 with lia.
Qed.

Lemma grade_of_ELITE t : grade_of t = ELITE ↔ 114 ≤ t.
Proof.
  destruct (grade_of_cases t) as [[? ->]|[[? ->]|[[? ->]|[[? ->]|[? ->]]]]];
    split; (done || lia).
Qed.

Lemma geb_114_ELITE t : (t >=? 114) = true ↔ grade_of t = ELITE.
Proof. rewrite grade_of_ELITE, Z.geb_le. done. Qed.

Lemma grade_of_table t : grade_of t = table_grade t.
Proof.
  unfold table_grade, grade_thresholds, first_match.
  destruct (grade_of_cases t) as [[? ->]|[[? ->]|[[? ->]|[[? ->]|[? ->]]]]];
    repeat case_bool_decide; (done || lia).
Qed.

(** ** The link comprehension *)

Lemma validate_link_url link url :
  link_url link = Some url →
  validate_link link =
    Ok {| original_url := url; status := valid;
          redirect_count := 0; response_time_ms := 250 |}.
Proof.
  destruct link; try discriminate. simpl. intros Hurl.
  unfold validate_link. simpl. by rewrite Hurl.
Qed.

Lemma validate_link_checked link entry :
  validate_link link = Ok entry → link_checked link entry.
Proof.
  unfold validate_link. intros H. step H url Hurl. injection H as <-.
  destruct link; try discriminate. simpl in Hurl |- *.
  unfold link_checked. simpl.
  destruct (m !! py "url") as [u|]; [|discriminate].
  by injection Hurl as ->.
Qed.

Lemma comprehension_checked links entries :
  Py.comprehension validate_link links = Ok entries →
  Forall2 link_checked links entries.
Proof.
  revert entries. induction links as [|link links IH]; intros entries H.
  - injection H as <-. constructor.
  - simpl in H. step H entry Hentry. step H rest Hrest. injection H as <-.
    constructor; [by apply validate_link_checked | by apply IH].
Qed.

Lemma comprehension_returns links :
  forallb (λ link, bool_decide (is_Some (link_url link))) links = true →
  returns (Py.comprehension validate_link links).
Proof.
  induction links as [|link links IH]; simpl; [intros _; apply returns_Ok|].
  intros [Hlink Hall]%andb_prop.
  apply bool_decide_eq_true in Hlink as [url Hurl].
  destruct (IH Hall) as [rest Hrest].
  rewrite (validate_link_url _ _ Hurl), bind_Ok, Hrest. apply returns_Ok.
Qed.

(** ** The report as a function of the two counts *)

(** Every report the engine returns has the scores of some pair of counts. *)
Lemma evaluate_scored now_id now_ts d r :
  mock_evaluate_content now_id now_ts d = Ok r →
  ∃ n k, 0 ≤ n ∧ 0 ≤ k ∧ scored n k r.
Proof.
  unfold mock_evaluate_content. intros H.
  step H content Hcontent. step H body Hbody. step H n Hn.
  step H asp_links Hlinks. step H k Hk. cbv zeta in H.
  step H asp_links' Hlinks'. step H links Hiter. step H entries Hentries.
  injection H as <-.
  exists n, k. split; [by eapply len_nonneg|]. split; [by eapply len_nonneg|].
  by repeat split.
Qed.

(** On a document whose body and links are defined the engine returns, and
    the report is that of their lengths. *)
Lemma evaluate_document now_id now_ts d body links :
  body_of d = Some body → links_of d = Some links →
  ∃ r, mock_evaluate_content now_id now_ts d = Ok r ∧
       scored (Z.of_nat (length body)) (Z.of_nat (length links)) r ∧
       Forall2 link_checked links (link_validation_results r).
Proof.
  intros Hbody Hlinks. destruct d as [| | | | |?|m]; try discriminate.
  assert (∃ content,
           Py.get (JObj m) (py "content") (JObj ∅) = Ok content ∧
           ∃ b, Py.get content (py "body") (JStr []) = Ok b ∧
                Py.len b = Ok (Z.of_nat (length body)))
    as (content & Hc & b & Hb & Hn).
  { simpl in Hbody. rewrite get_of_object.
    destruct (m !! py "content") as [[| | | | |?|c]|]; try discriminate; simpl.
    - eexists; split; [done|]. rewrite get_of_object.
      destruct (c !! py "body") as [[| | | |s|?|?]|]; try discriminate; simpl.
      + injection Hbody as ->. eauto.
      + injection Hbody as <-. eauto.
    - injection Hbody as <-. eexists; split; [done|]. rewrite get_of_object.
      rewrite lookup_empty. simpl. eauto. }
  assert (∃ asp_links,
           Py.get (JObj m) (py "asp_links") (JList []) = Ok asp_links ∧
           Py.len asp_links = Ok (Z.of_nat (length links)) ∧
           Py.iter asp_links = Ok links ∧
           returns (Py.comprehension validate_link links))
    as (asp_links & Ha & Hk & Hiter & [entries Hentries]).
  { simpl in Hlinks. rewrite get_of_object.
    destruct (m !! py "asp_links") as [[| | | | |l|?]|]; try discriminate; simpl.
    - destruct (forallb _ l) eqn:Hall; [|discriminate]. injection Hlinks as <-.
      eexists; repeat split; by try apply comprehension_returns.
    - injection Hlinks as <-. eexists; repeat split. apply returns_Ok. }
  unfold mock_evaluate_content.
  rewrite Hc, bind_Ok, Hb, bind_Ok, Hn, bind_Ok, Ha, bind_Ok, Hk, bind_Ok.
  cbv zeta. rewrite bind_Ok, Hiter, bind_Ok, Hentries, bind_Ok.
  eexists; split; [done|]. split; [by repeat split|].
  simpl. by apply comprehension_checked.
Qed.

(** ** The engine on sample documents *)

(** 2000 characters and one link: 80 + 5, graded GOOD. *)
Example evaluate_2000_characters_one_link :
  ∃ r, mock_evaluate_content sample_now sample_now
         (sample_document 2000 [sample_link "u"]) = Ok r ∧
       content_length (metadata r) = 2000 ∧
       overall_score r =
         {| total := 85; grade := GOOD; auto_publish_eligible := false |}.
Proof. eexists. split; [vm_compute; reflexivity|]. by vm_compute. Qed.

(** An empty body and no link: 0, graded POOR. *)
Example evaluate_empty_document :
  ∃ r, mock_evaluate_content sample_now sample_now (sample_document 0 []) = Ok r ∧
       overall_score r =
         {| total := 0; grade := POOR; auto_publish_eligible := false |}.
Proof. eexists. split; [vm_compute; reflexivity|]. by vm_compute. Qed.

(** A link entry without a [url] is a [KeyError]. *)
Example evaluate_link_without_url :
  mock_evaluate_content sample_now sample_now
    (JObj (<[py "asp_links" := JList [JObj ∅]]> ∅)) = Raise (KeyError (py "url")).
Proof. by vm_compute. Qed.

(** [asp_links] that is a number has no [len]. *)
Example evaluate_scalar_links :
  mock_evaluate_content sample_now sample_now
    (JObj (<[py "asp_links" := JInt 5]> ∅)) = Raise TypeError.
Proof. by vm_compute. Qed.

(** * The claims *)

(** C1: on every input document the engine returns a report whose total is
    [min(80, content_length // 20) + min(20, link_count * 5)], with
    [content_length] the length of [content.body] and [link_count] the
    number of [asp_links] entries; the first term lies in [0,80], the second
    in [0,20] and the total in [0,100]. *)
Theorem total_is_base_plus_link now_id now_ts d body links :
  body_of d = Some body → links_of d = Some links →
  ∃ r, mock_evaluate_content now_id now_ts d = Ok r ∧
       let n := Z.of_nat (length body) in
       let k := Z.of_nat (length links) in
       let base_score := Z.min 80 (n `div` 20) in
       let link_score := Z.min 20 (k * 5) in
       content_length (metadata r) = n ∧
       total (overall_score r) = base_score + link_score ∧
       0 ≤ base_score ≤ 80 ∧ 0 ≤ link_score ≤ 20 ∧
       0 ≤ total (overall_score r) ≤ 100.
Proof.
  intros Hbody Hlinks.
  destruct (evaluate_document now_id now_ts d body links Hbody Hlinks)
    as (r & Hr & (Hoverall & _ & Hlen) & _).
  exists r. split; [done|]. cbv zeta. rewrite Hoverall. simpl.
  pose proof (base_score_range (Z.of_nat (length body)) ltac:(lia)).
  pose proof (link_score_range (Z.of_nat (length links)) ltac:(lia)).
  repeat split; (done || lia).
Qed.

Lemma total_is_base_plus_link_witness :
  ∃ r, mock_evaluate_content sample_now sample_now
         (sample_document 2000 [sample_link "u"]) = Ok r ∧
       content_length (metadata r) = 2000 ∧ total (overall_score r) = 85.
Proof.
  destruct (total_is_base_plus_link sample_now sample_now
              (sample_document 2000 [sample_link "u"])
              (replicate 2000 120%N) [sample_link "u"])
    as (r & Hr & Hn & Ht & _); [by vm_compute | by vm_compute |].
  exists r. split; [exact Hr|]. split; [exact Hn | exact Ht].
Defined.

(** C2: the grade of the report is the one the threshold table gives for
    its total, highest threshold first and first match winning: at least 114
    is ELITE, at least 100 EXCELLENT, at least 80 GOOD, at least 60 FAIR,
    the rest POOR; so 114 is ELITE, 113 and 100 are EXCELLENT, 99 and 80
    GOOD, 79 and 60 FAIR, and 59 POOR. *)
Theorem grade_matches_threshold_table now_id now_ts d body links :
  body_of d = Some body → links_of d = Some links →
  ∃ r, mock_evaluate_content now_id now_ts d = Ok r ∧
       grade (overall_score r) = grade_of (total (overall_score r)) ∧
       grade (overall_score r) = table_grade (total (overall_score r)) ∧
       (∀ t, grade_of t = table_grade t) ∧
       (∀ t, (114 ≤ t → grade_of t = ELITE) ∧
             (100 ≤ t < 114 → grade_of t = EXCELLENT) ∧
             (80 ≤ t < 100 → grade_of t = GOOD) ∧
             (60 ≤ t < 80 → grade_of t = FAIR) ∧
             (t < 60 → grade_of t = POOR)) ∧
       grade_of 114 = ELITE ∧
       grade_of 113 = EXCELLENT ∧ grade_of 100 = EXCELLENT ∧
       grade_of 99 = GOOD ∧ grade_of 80 = GOOD ∧
       grade_of 79 = FAIR ∧ grade_of 60 = FAIR ∧
       grade_of 59 = POOR.
Proof.
  intros Hbody Hlinks.
  destruct (evaluate_document now_id now_ts d body links Hbody Hlinks)
    as (r & Hr & (Hoverall & _) & _).
  exists r. split; [done|]. rewrite Hoverall. simpl.
  split; [done|]. split; [apply grade_of_table|].
  split; [apply grade_of_table|]. split; [|by repeat split].
  intros t.
  destruct (grade_of_cases t) as [[? ->]|[[? ->]|[[? ->]|[[? ->]|[? ->]]]]];
    repeat split; intros; (done || lia).
Qed.

Lemma grade_matches_threshold_table_witness :
  ∃ r, mock_evaluate_content sample_now sample_now
         (sample_document 2000 [sample_link "u"]) = Ok r ∧
       grade (overall_score r) = table_grade (total (overall_score r)).
Proof.
  destruct (grade_matches_threshold_table sample_now sample_now
              (sample_document 2000 [sample_link "u"])
              (replicate 2000 120%N) [sample_link "u"])
    as (r & Hr & _ & Hg & _); [by vm_compute | by vm_compute |].
  exists r. split; [exact Hr | exact Hg].
Defined.

(** C3: in every report the engine returns, [auto_publish_eligible] is the
    test [total >= 114]; it is true exactly when the grade is ELITE, which
    is exactly when the total is at least 114, so a report graded EXCELLENT,
    GOOD, FAIR or POOR is not eligible.  The two equivalences hold of the
    code's tests at every total. *)
Theorem auto_publish_iff_elite now_id now_ts d r :
  mock_evaluate_content now_id now_ts d = Ok r →
  let o := overall_score r in
  grade o = grade_of (total o) ∧
  auto_publish_eligible o = (total o >=? 114) ∧
  (auto_publish_eligible o = true ↔ grade o = ELITE) ∧
  (grade o = ELITE ↔ 114 ≤ total o) ∧
  (grade o ∈ [EXCELLENT; GOOD; FAIR; POOR] → auto_publish_eligible o = false) ∧
  (∀ t, (t >=? 114) = true ↔ grade_of t = ELITE) ∧
  (∀ t, grade_of t = ELITE ↔ 114 ≤ t).
Proof.
  intros Hr. destruct (evaluate_scored _ _ _ _ Hr) as (n & k & _ & _ & Ho & _).
  cbv zeta. rewrite Ho. simpl.
  set (t := Z.min 80 (n `div` 20) + Z.min 20 (k * 5)).
  split; [done|]. split; [done|]. split; [apply geb_114_ELITE|].
  split; [apply grade_of_ELITE|].
  split; [|split; [apply geb_114_ELITE | apply grade_of_ELITE]].
  intros Hin. apply not_true_is_false. rewrite geb_114_ELITE. intros He.
  rewrite He, !elem_of_cons, elem_of_nil in Hin.
  destruct Hin as [?|[?|[?|[?|[]]]]]; discriminate.
Qed.

Lemma auto_publish_iff_elite_witness :
  ∃ r, mock_evaluate_content sample_now sample_now
         (sample_document 2000 [sample_link "u"]) = Ok r ∧
       (auto_publish_eligible (overall_score r) = true ↔
        grade (overall_score r) = ELITE).
Proof.
  eexists. split; [vm_compute; reflexivity|].
  refine (proj1 (proj2 (proj2
    (auto_publish_iff_elite sample_now sample_now
       (sample_document 2000 [sample_link "u"]) _ _)))).
  vm_compute. reflexivity.
Defined.

(** C4, as amended: the total of a report is at most 100, below the ELITE
    threshold of 114, so no report is graded ELITE and none is eligible for
    auto-publishing.  (The total does reach 100, and the grade EXCELLENT.) *)
Theorem total_below_elite now_id now_ts d r :
  mock_evaluate_content now_id now_ts d = Ok r →
  0 ≤ total (overall_score r) ≤ 100 ∧
  total (overall_score r) < 114 ∧
  grade (overall_score r) ≠ ELITE ∧
  auto_publish_eligible (overall_score r) = false.
Proof.
  intros Hr.
  destruct (evaluate_scored _ _ _ _ Hr) as (n & k & Hn & Hk & Ho & _).
  rewrite Ho. simpl.
  pose proof (base_score_range n Hn). pose proof (link_score_range k Hk).
  split; [lia|]. split; [lia|]. split.
  - rewrite grade_of_ELITE. lia.
  - apply not_true_is_false. rewrite Z.geb_le. lia.
Qed.

Lemma total_below_elite_witness :
  ∃ r, mock_evaluate_content sample_now sample_now
         (sample_document 2000 [sample_link "u"]) = Ok r ∧
       grade (overall_score r) ≠ ELITE ∧
       auto_publish_eligible (overall_score r) = false.
Proof.
  eexists. split; [vm_compute; reflexivity|].
  refine (proj2 (proj2
    (total_below_elite sample_now sample_now
       (sample_document 2000 [sample_link "u"]) _ _))).
  vm_compute. reflexivity.
Defined.

(** C4, as stated, fails: a body of 1600 characters with four links has the
    total 100, so the total does reach the 100 boundary. *)
Lemma total_reaches_100 :
  ¬ (∀ now_id now_ts d r,
       mock_evaluate_content now_id now_ts d = Ok r →
       total (overall_score r) < 100 ∧
       grade (overall_score r) ≠ ELITE ∧
       auto_publish_eligible (overall_score r) = false).
Proof.
  intros H.
  pose (links := [sample_link "a"; sample_link "b";
                  sample_link "c"; sample_link "d"]).
  destruct (evaluate_document sample_now sample_now
              (sample_document 1600 links) (replicate 1600 120%N) links)
    as (r & Hr & (Ho & _) & _); [by vm_compute | by vm_compute |].
  destruct (H _ _ _ _ Hr) as [Hlt _]. rewrite Ho in Hlt.
  vm_compute in Hlt. discriminate.
Qed.

(** C6: the report has one [link_validation_results] entry for each
    [asp_links] entry, in the same order (none when there is no link); the
    entry of a link has that link's [url] as [original_url], the status
    [valid], no redirect and the fixed response time of 250 ms. *)
Theorem link_results_follow_links now_id now_ts d body links :
  body_of d = Some body → links_of d = Some links →
  ∃ r, mock_evaluate_content now_id now_ts d = Ok r ∧
       length (link_validation_results r) = length links ∧
       (links = [] → link_validation_results r = []) ∧
       ∀ (i : nat) link, links !! i = Some link →
         ∃ url, Py.getitem link (py "url") = Ok url ∧
                link_validation_results r !! i =
                  Some {| original_url := url; status := valid;
                          redirect_count := 0; response_time_ms := 250 |}.
Proof.
  intros Hbody Hlinks.
  destruct (evaluate_document now_id now_ts d body links Hbody Hlinks)
    as (r & Hr & _ & Hall).
  exists r. split; [done|]. split; [symmetry; by eapply Forall2_length|].
  split.
  - intros ->. by apply Forall2_nil_inv_l in Hall.
  - intros i link Hi.
    destruct (Forall2_lookup_l _ _ _ _ _ Hall Hi)
      as ([url st rc ms] & Hentry & Hurl & Hst & Hrc & Hms).
    simpl in *. subst. exists url. split; [|done].
    destruct link; try discriminate. simpl in Hurl |- *. by rewrite Hurl.
Qed.

Lemma link_results_follow_links_witness :
  ∃ r, mock_evaluate_content sample_now sample_now
         (sample_document 40 [sample_link "a"; sample_link "b"]) = Ok r ∧
       length (link_validation_results r) = 2%nat.
Proof.
  destruct (link_results_follow_links sample_now sample_now
              (sample_document 40 [sample_link "a"; sample_link "b"])
              (replicate 40 120%N) [sample_link "a"; sample_link "b"])
    as (r & Hr & Hlen & _); [by vm_compute | by vm_compute |].
  exists r. split; [exact Hr | exact Hlen].
Defined.

(** ** Documents without a body *)

Lemma body_absent_body_of d : body_absent d = true → body_of d = Some [].
Proof.
  destruct d as [| | | | |?|m]; try discriminate. simpl.
  destruct (m !! py "content") as [[| | | | |?|c]|]; try discriminate; [|done].
  intros ->%bool_decide_eq_true. done.
Qed.

Lemma content_is_not_asp_links : py "content" ≠ py "asp_links".
Proof. discriminate. Qed.

(** The engine does on a document without a body what it does on the same
    document with the empty string as its body, whatever that is. *)
Lemma evaluate_with_empty_body now_id now_ts d :
  body_absent d = true →
  mock_evaluate_content now_id now_ts (with_body [] d) =
  mock_evaluate_content now_id now_ts d.
Proof.
  destruct d as [| | | | |?|m]; try discriminate. simpl. intros Habsent.
  unfold mock_evaluate_content. rewrite !get_of_object.
  rewrite lookup_insert_eq, (lookup_insert_ne _ _ _ _ content_is_not_asp_links).
  simpl. rewrite lookup_insert_eq. simpl.
  destruct (m !! py "content") as [[| | | | |?|c]|]; try discriminate; simpl.
  - apply bool_decide_eq_true in Habsent. by rewrite Habsent.
  - by rewrite lookup_empty.
Qed.

(** C7: on every input document without a [content.body] the engine
    returns, and returns what it does with the empty string as the body:
    [content_length] is 0, the content contributes 0 to the total, and
    without links the total is 0 and the grade the lowest, POOR. *)
Theorem absent_body_is_empty_string now_id now_ts d links :
  body_absent d = true → links_of d = Some links →
  ∃ r, mock_evaluate_content now_id now_ts d = Ok r ∧
       mock_evaluate_content now_id now_ts (with_body [] d) = Ok r ∧
       content_length (metadata r) = 0 ∧
       total (overall_score r) = 0 + Z.min 20 (Z.of_nat (length links) * 5) ∧
       (links = [] →
        total (overall_score r) = 0 ∧ grade (overall_score r) = POOR).
Proof.
  intros Habsent Hlinks.
  destruct (evaluate_document now_id now_ts d [] links
              (body_absent_body_of d Habsent) Hlinks)
    as (r & Hr & (Ho & _ & Hn) & _).
  exists r. split; [done|].
  split; [by rewrite evaluate_with_empty_body|].
  split; [done|]. rewrite Ho. simpl. split; [done|]. by intros ->.
Qed.

Lemma absent_body_is_empty_string_witness :
  ∃ r, mock_evaluate_content sample_now sample_now
         (JObj (<[py "content" := JObj (<[py "title" := JStr (py "T")]> ∅)]>
               (<[py "asp_links" := JList []]> ∅))) = Ok r ∧
       content_length (metadata r) = 0 ∧ grade (overall_score r) = POOR.
Proof.
  destruct (absent_body_is_empty_string sample_now sample_now
              (JObj (<[py "content" := JObj (<[py "title" := JStr (py "T")]> ∅)]>
                    (<[py "asp_links" := JList []]> ∅))) [])
    as (r & Hr & _ & Hn & _ & Hg); [by vm_compute | by vm_compute |].
  exists r. split; [exact Hr|]. split; [exact Hn | exact (proj2 (Hg eq_refl))].
Defined.

(** C8: of two input documents with as many links each, the one with the
    strictly longer body has a total at least as large as the other's. *)
Theorem longer_body_total_no_less now_id now_ts now_id' now_ts'
    d d' body body' links links' :
  body_of d = Some body → links_of d = Some links →
  body_of d' = Some body' → links_of d' = Some links' →
  length links = length links' →
  (length body < length body')%nat →
  ∃ r r', mock_evaluate_content now_id now_ts d = Ok r ∧
          mock_evaluate_content now_id' now_ts' d' = Ok r' ∧
          total (overall_score r) ≤ total (overall_score r').
Proof.
  intros Hb Hl Hb' Hl' Hk Hlt.
  destruct (evaluate_document now_id now_ts d body links Hb Hl)
    as (r & Hr & (Ho & _) & _).
  destruct (evaluate_document now_id' now_ts' d' body' links' Hb' Hl')
    as (r' & Hr' & (Ho' & _) & _).
  exists r, r'. split; [done|]. split; [done|].
  rewrite Ho, Ho', Hk. simpl.
  apply Z.add_le_mono_r, base_score_mono. lia.
Qed.

Lemma longer_body_total_no_less_witness :
  ∃ r r', mock_evaluate_content sample_now sample_now
            (sample_document 13 [sample_link "test"]) = Ok r ∧
          mock_evaluate_content sample_now sample_now
            (sample_document 1800 [sample_link "test"]) = Ok r' ∧
          total (overall_score r) ≤ total (overall_score r').
Proof.
  apply (longer_body_total_no_less sample_now sample_now sample_now sample_now
           (sample_document 13 [sample_link "test"])
           (sample_document 1800 [sample_link "test"])
           (replicate 13 120%N) (replicate 1800 120%N)
           [sample_link "test"] [sample_link "test"]);
    [by vm_compute | by vm_compute | by vm_compute | by vm_compute
    | reflexivity | rewrite !length_replicate; lia].
Defined.

(** C9: the eight detailed scores of the report are
    [min(15, total // 8)], [min(20, content_length // 50)],
    [min(20, link_count * 4)], [min(15, link_count * 3)],
    [min(20, content_length // 40)], 8, [min(15, link_count * 3)] and 4,
    each between 0 and its cap. *)
Theorem detailed_scores_formulas now_id now_ts d body links :
  body_of d = Some body → links_of d = Some links →
  ∃ r, mock_evaluate_content now_id now_ts d = Ok r ∧
       let n := Z.of_nat (length body) in
       let k := Z.of_nat (length links) in
       let s := detailed_scores r in
       detailed_scores r =
         {| seo_optimization := Z.min 15 (total (overall_score r) `div` 8);
            content_quality := Z.min 20 (n `div` 50);
            affiliate_integration := Z.min 20 (k * 4);
            link_validity := Z.min 15 (k * 3);
            user_value := Z.min 20 (n `div` 40);
            compliance := 8;
            conversion_potential := Z.min 15 (k * 3);
            technical_quality := 4 |} ∧
       0 ≤ seo_optimization s ≤ 15 ∧
       0 ≤ content_quality s ≤ 20 ∧
       0 ≤ affiliate_integration s ≤ 20 ∧
       0 ≤ link_validity s ≤ 15 ∧
       0 ≤ user_value s ≤ 20 ∧
       0 ≤ compliance s ≤ 8 ∧
       0 ≤ conversion_potential s ≤ 15 ∧
       0 ≤ technical_quality s ≤ 4.
Proof.
  intros Hbody Hlinks.
  destruct (evaluate_document now_id now_ts d body links Hbody Hlinks)
    as (r & Hr & (Ho & Hd & _) & _).
  exists r. split; [done|]. cbv zeta. rewrite Hd, Ho. simpl.
  set (n := Z.of_nat (length body)). set (k := Z.of_nat (length links)).
  assert (0 ≤ n) by lia. assert (0 ≤ k) by lia.
  pose proof (base_score_range n ltac:(done)).
  pose proof (link_score_range k ltac:(done)).
  assert (0 ≤ (Z.min 80 (n `div` 20) + Z.min 20 (k * 5)) `div` 8)
    by (apply Z.div_pos; lia).
  assert (0 ≤ n `div` 50) by (apply Z.div_pos; lia).
  assert (0 ≤ n `div` 40) by (apply Z.div_pos; lia).
  split; [done|]. repeat split; lia.
Qed.

Lemma detailed_scores_formulas_witness :
  ∃ r, mock_evaluate_content sample_now sample_now
         (sample_document 2000 [sample_link "u"]) = Ok r ∧
       content_quality (detailed_scores r) = 20 ∧
       affiliate_integration (detailed_scores r) = 4 ∧
       user_value (detailed_scores r) = 20.
Proof.
  destruct (detailed_scores_formulas sample_now sample_now
              (sample_document 2000 [sample_link "u"])
              (replicate 2000 120%N) [sample_link "u"])
    as (r & Hr & Hd & _); [by vm_compute | by vm_compute |].
  exists r. split; [exact Hr|]. rewrite Hd. by vm_compute.
Defined.

(** ** Documents without [content] or [asp_links] *)

(** A missing [content] is read as the empty object. *)
Lemma evaluate_default_content now_id now_ts m :
  m !! py "content" = None →
  mock_evaluate_content now_id now_ts (JObj (<[py "content" := JObj ∅]> m)) =
  mock_evaluate_content now_id now_ts (JObj m).
Proof.
  intros Hm. unfold mock_evaluate_content. rewrite !get_of_object.
  rewrite lookup_insert_eq, (lookup_insert_ne _ _ _ _ content_is_not_asp_links).
  by rewrite Hm.
Qed.

(** A missing [asp_links] is read as the empty sequence. *)
Lemma evaluate_default_links now_id now_ts m :
  m !! py "asp_links" = None →
  mock_evaluate_content now_id now_ts (JObj (<[py "asp_links" := JList []]> m)) =
  mock_evaluate_content now_id now_ts (JObj m).
Proof.
  intros Hm. unfold mock_evaluate_content. rewrite !get_of_object.
  rewrite lookup_insert_eq.
  rewrite (lookup_insert_ne _ _ _ _ (not_eq_sym content_is_not_asp_links)).
  by rewrite Hm.
Qed.

(** C10, as amended: on every JSON object in which [content], when present,
    is an object whose [body], when present, is a string, and [asp_links],
    when present, is a sequence of objects that each have a [url], the
    engine returns.  A missing [content] is read as the empty object and
    gives [content_length] 0; a missing [asp_links] is read as the empty
    sequence and gives a link score of 0 and no [link_validation_results]. *)
Theorem missing_keys_take_defaults (now_id now_ts : datetime)
    (m : gmap (list N) json) (body : pystr) (links : list json) :
  body_of (JObj m) = Some body → links_of (JObj m) = Some links →
  ∃ r, mock_evaluate_content now_id now_ts (JObj m) = Ok r ∧
       (m !! py "content" = None →
        mock_evaluate_content now_id now_ts
          (JObj (<[py "content" := JObj ∅]> m)) = Ok r ∧
        content_length (metadata r) = 0 ∧
        total (overall_score r) = 0 + Z.min 20 (Z.of_nat (length links) * 5)) ∧
       (m !! py "asp_links" = None →
        mock_evaluate_content now_id now_ts
          (JObj (<[py "asp_links" := JList []]> m)) = Ok r ∧
        total (overall_score r) = Z.min 80 (Z.of_nat (length body) `div` 20) + 0 ∧
        link_validation_results r = []).
Proof.
  intros Hbody Hlinks.
  destruct (evaluate_document now_id now_ts (JObj m) body links Hbody Hlinks)
    as (r & Hr & (Ho & _ & Hn) & Hall).
  exists r. split; [done|]. split; intros Hm.
  - split; [by rewrite evaluate_default_content|].
    simpl in Hbody. rewrite Hm in Hbody. injection Hbody as <-.
    rewrite Ho, Hn. done.
  - split; [by rewrite evaluate_default_links|].
    simpl in Hlinks. rewrite Hm in Hlinks. injection Hlinks as <-.
    rewrite Ho. split; [done|]. by apply Forall2_nil_inv_l in Hall.
Qed.

Lemma missing_keys_take_defaults_witness :
  ∃ r, mock_evaluate_content sample_now sample_now (JObj ∅) = Ok r ∧
       content_length (metadata r) = 0 ∧ link_validation_results r = [].
Proof.
  destruct (missing_keys_take_defaults sample_now sample_now ∅ [] [])
    as (r & Hr & Hcontent & Hlinks); [reflexivity | reflexivity |].
  exists r. split; [exact Hr|]. split.
  - exact (proj1 (proj2 (Hcontent eq_refl))).
  - exact (proj2 (proj2 (Hlinks eq_refl))).
Defined.

(** C10, as stated, fails: the object whose [content] is [null] has the
    key, so the default is not used, and [None] has no [get]. *)
Lemma null_content_raises :
  ¬ (∀ (now_id now_ts : datetime) (m : gmap (list N) json),
       returns (mock_evaluate_content now_id now_ts (JObj m))).
Proof.
  intros H.
  specialize (H sample_now sample_now (<[py "content" := JNull]> ∅)).
  vm_compute in H. by apply not_returns_Raise in H.
Qed.

(** * Further properties of the engine *)

(** ** The engine factors through its three reads *)

Lemma bind_assoc {A B C} (c : result A) (f : A → result B) (g : B → result C) :
  ((c ≫= f) ≫= g) = (c ≫= λ a, f a ≫= g).
Proof. by destruct c. Qed.

(** The report is a function of the clock, the length, the count and the
    entries, and these are read in that order. *)
Lemma evaluate_reads now_id now_ts :
  ∃ build : Z → Z → list LinkValidation → AuditReport,
    ∀ d, mock_evaluate_content now_id now_ts d =
         (n ← read_length d; k ← read_count d; es ← read_entries d;
          Ok (build n k es)).
Proof.
  eexists (λ n k es, _). intros d.
  unfold mock_evaluate_content, read_length, read_count, read_entries.
  destruct (Py.get d (py "content") (JObj ∅)) as [content|e]; [|done].
  rewrite !bind_Ok.
  destruct (Py.get content (py "body") (JStr [])) as [body|e]; [|done].
  rewrite !bind_Ok.
  destruct (Py.len body) as [n|e]; [|done]. rewrite !bind_Ok.
  destruct (Py.get d (py "asp_links") (JList [])) as [asp_links|e]; [|done].
  rewrite !bind_Ok.
  destruct (Py.len asp_links) as [k|e]; [|done]. rewrite !bind_Ok. cbv zeta.
  destruct (Py.iter asp_links) as [links|e]; [|done]. rewrite !bind_Ok.
  destruct (Py.comprehension validate_link links) as [es|e]; [|done].
  rewrite !bind_Ok. reflexivity.
Qed.

Lemma evaluate_congruence now_id now_ts d d' :
  read_length d = read_length d' → read_count d = read_count d' →
  read_entries d = read_entries d' →
  mock_evaluate_content now_id now_ts d = mock_evaluate_content now_id now_ts d'.
Proof.
  intros Hn Hk He. destruct (evaluate_reads now_id now_ts) as [build H].
  by rewrite !H, Hn, Hk, He.
Qed.

Lemma evaluate_returns_iff now_id now_ts d :
  returns (mock_evaluate_content now_id now_ts d) ↔
  returns (read_length d) ∧ returns (read_count d) ∧ returns (read_entries d).
Proof.
  destruct (evaluate_reads now_id now_ts) as [build H]. rewrite H.
  destruct (read_length d), (read_count d), (read_entries d); simpl;
    split; try (intros [? ?]; discriminate);
    try (intros ([? ?] & [? ?] & [? ?]); discriminate).
  - intros _. repeat split; apply returns_Ok.
  - intros _. apply returns_Ok.
Qed.

Lemma read_length_document d body :
  body_of d = Some body → read_length d = Ok (Z.of_nat (length body)).
Proof.
  destruct d as [| | | | |?|m]; try discriminate. unfold read_length. simpl.
  destruct (m !! py "content") as [[| | | | |?|c]|]; try discriminate; simpl.
  - destruct (c !! py "body") as [[| | | |s|?|?]|]; try discriminate; simpl;
      by intros [= <-].
  - rewrite lookup_empty. simpl. by intros [= <-].
Qed.

Lemma read_count_document d links :
  links_of d = Some links → read_count d = Ok (Z.of_nat (length links)).
Proof.
  destruct d as [| | | | |?|m]; try discriminate. unfold read_count. simpl.
  destruct (m !! py "asp_links") as [[| | | | |l|?]|]; try discriminate; simpl.
  - destruct (forallb _ l); [|discriminate]. by intros [= <-].
  - by intros [= <-].
Qed.

Lemma read_entries_document d links :
  links_of d = Some links →
  read_entries d = Py.comprehension validate_link links.
Proof.
  destruct d as [| | | | |?|m]; try discriminate. unfold read_entries. simpl.
  destruct (m !! py "asp_links") as [[| | | | |l|?]|]; try discriminate; simpl.
  - destruct (forallb _ l); [|discriminate]. by intros [= <-].
  - by intros [= <-].
Qed.

Lemma comprehension_entries links urls :
  link_url <$> links = Some <$> urls →
  Py.comprehension validate_link links = Ok (entry_of <$> urls).
Proof.
  revert urls. induction links as [|link links IH]; intros [|url urls] H;
    try discriminate; [done|].
  injection H as Hurl Hrest. simpl.
  rewrite (validate_link_url _ _ Hurl), bind_Ok, (IH _ Hrest). done.
Qed.

Lemma links_of_urls d links :
  links_of d = Some links → ∃ urls, link_url <$> links = Some <$> urls.
Proof.
  destruct d as [| | | | |?|m]; try discriminate. simpl.
  destruct (m !! py "asp_links") as [[| | | | |l|?]|]; try discriminate.
  - destruct (forallb _ l) eqn:Hall; [|discriminate]. intros [= <-].
    induction l as [|link l IH]; [by exists []|].
    simpl in Hall. apply andb_prop in Hall as [Hlink Hall].
    apply bool_decide_eq_true in Hlink as [url Hurl].
    destruct (IH Hall) as [urls Hurls]. exists (url :: urls).
    rewrite !fmap_cons. by rewrite Hurl, Hurls.
  - intros [= <-]. by exists [].
Qed.

(** X1: keys of the input other than [content] and [asp_links] (such as
    [evaluation_config]) do not matter: with one set to any value the engine
    does the same, returning the same report or raising the same error. *)
Theorem other_keys_are_ignored (now_id now_ts : datetime)
    (m : gmap (list N) json) (key : list N) (v : json) :
  key ≠ py "content" → key ≠ py "asp_links" →
  mock_evaluate_content now_id now_ts (JObj (<[key := v]> m)) =
  mock_evaluate_content now_id now_ts (JObj m).
Proof.
  intros Hc Ha. apply evaluate_congruence;
    unfold read_length, read_count, read_entries;
    rewrite !get_of_object, lookup_insert_ne; done.
Qed.

Lemma other_keys_are_ignored_witness :
  mock_evaluate_content sample_now sample_now
    (JObj (<[py "evaluation_config" :=
               JObj (<[py "strict_mode" := JBool true]> ∅)]> ∅)) =
  mock_evaluate_content sample_now sample_now (JObj ∅).
Proof.
  apply (other_keys_are_ignored sample_now sample_now ∅
           (py "evaluation_config")); discriminate.
Defined.

(** X2: the report depends on the document only through the length of the
    body and the urls of the links: two documents with bodies of the same
    length and the same urls, in order, get the same report at the same
    clock readings, whatever their titles, meta data or other link fields. *)
Theorem report_depends_on_length_and_urls (now_id now_ts : datetime)
    (d d' : json) (body body' : pystr) (links links' : list json) :
  body_of d = Some body → links_of d = Some links →
  body_of d' = Some body' → links_of d' = Some links' →
  length body = length body' →
  link_url <$> links = link_url <$> links' →
  mock_evaluate_content now_id now_ts d = mock_evaluate_content now_id now_ts d' ∧
  returns (mock_evaluate_content now_id now_ts d).
Proof.
  intros Hb Hl Hb' Hl' Hn Hu.
  split.
  - apply evaluate_congruence.
    + rewrite (read_length_document _ _ Hb), (read_length_document _ _ Hb').
      by rewrite Hn.
    + rewrite (read_count_document _ _ Hl), (read_count_document _ _ Hl').
      apply (f_equal length) in Hu. rewrite !length_fmap in Hu. by rewrite Hu.
    + rewrite (read_entries_document _ _ Hl), (read_entries_document _ _ Hl').
      destruct (links_of_urls _ _ Hl) as [urls Hurls].
      rewrite (comprehension_entries _ _ Hurls).
      rewrite Hu in Hurls. by rewrite (comprehension_entries _ _ Hurls).
  - destruct (evaluate_document now_id now_ts d body links Hb Hl) as (r & -> & _).
    apply returns_Ok.
Qed.

Lemma report_depends_on_length_and_urls_witness :
  mock_evaluate_content sample_now sample_now
    (sample_document 40 [sample_link "u"]) =
  mock_evaluate_content sample_now sample_now
    (JObj (<[py "content" := JObj (<[py "body" := JStr (replicate 40 121%N)]> ∅)]>
          (<[py "asp_links" := JList [JObj (<[py "url" := JStr (py "u")]> ∅)]]> ∅))).
Proof.
  refine (proj1 (report_depends_on_length_and_urls sample_now sample_now
           _ _ (replicate 40 120%N) (replicate 40 121%N)
           [sample_link "u"] [JObj (<[py "url" := JStr (py "u")]> ∅)]
           _ _ _ _ _ _)); by vm_compute.
Defined.

(** ** When the engine returns and what it raises *)

Lemma comprehension_returns_iff links :
  returns (Py.comprehension validate_link links) ↔
  forallb (λ link, bool_decide (is_Some (link_url link))) links = true.
Proof.
  split; [|apply comprehension_returns].
  intros [entries H]. apply comprehension_checked in H.
  induction H as [|link entry links entries [Hurl _] _ IH]; [done|].
  simpl. rewrite IH, andb_true_r. apply bool_decide_eq_true. by eexists.
Qed.

Lemma fmap_is_nil {A B} (f : A → B) (l : list A) : f <$> l = [] ↔ l = [].
Proof. split; [apply fmap_nil_inv | by intros ->]. Qed.

(** A comprehension over strings fails at the first of them. *)
Lemma comprehension_strings (strs : list (list N)) :
  returns (Py.comprehension validate_link (JStr <$> strs)) ↔ strs = [].
Proof.
  destruct strs as [|s strs]; simpl.
  - split; [done | intros _; apply returns_Ok].
  - split; [intros [? ?]; discriminate | discriminate].
Qed.

Lemma read_length_returns (m : gmap (list N) json) :
  returns (read_length (JObj m)) ↔
  match m !! py "content" with
  | None => true
  | Some (JObj c) =>
      match c !! py "body" with
      | None => true
      | Some b => sized b
      end
  | Some _ => false
  end = true.
Proof.
  unfold read_length. rewrite get_of_object, bind_Ok.
  destruct (m !! py "content") as [[| | | | |?|c]|]; simpl;
    try (split; [intros [? ?]; discriminate | discriminate]).
  - destruct (c !! py "body") as [[]|]; simpl;
      try (split; [intros [? ?]; discriminate | discriminate]);
      split; (done || intros _; apply returns_Ok).
  - rewrite lookup_empty. simpl. split; [done | intros _; apply returns_Ok].
Qed.

Lemma read_links_returns (m : gmap (list N) json) :
  returns (read_count (JObj m)) ∧ returns (read_entries (JObj m)) ↔
  match m !! py "asp_links" with
  | None => true
  | Some (JList l) =>
      forallb (λ link, bool_decide (is_Some (link_url link))) l
  | Some (JStr s) => bool_decide (s = [])
  | Some (JObj a) => bool_decide (a = ∅)
  | Some _ => false
  end = true.
Proof.
  unfold read_count, read_entries. rewrite !get_of_object, !bind_Ok.
  destruct (m !! py "asp_links") as [[| | | |s|l|a]|]; simpl;
    try (split; [intros [[? ?] _]; discriminate | discriminate]).
  - rewrite bool_decide_eq_true.
    replace ((λ c, JStr [c]) <$> s) with (JStr <$> ((λ c, [c]) <$> s))
      by (by rewrite <- list_fmap_compose).
    rewrite comprehension_strings, fmap_is_nil.
    split; [by intros [_ ?] | intros ?; split; [apply returns_Ok | done]].
  - rewrite <- comprehension_returns_iff.
    split; [by intros [_ ?] | intros ?; split; [apply returns_Ok | done]].
  - rewrite bool_decide_eq_true, comprehension_strings, fmap_is_nil.
    rewrite map_to_list_empty_iff.
    split; [by intros [_ ?] | intros ?; split; [apply returns_Ok | done]].
  - split; [done | intros _; split; apply returns_Ok].
Qed.

(** X3: the engine returns a report exactly on the inputs that are objects
    whose [content], when present, is an object whose [body], when present,
    is a string, a list or an object, and whose [asp_links], when present,
    is a list of objects that each have a [url] (or an empty string or an
    empty object); on every other input it raises. *)
Theorem returns_iff_evaluable (now_id now_ts : datetime) (d : json) :
  returns (mock_evaluate_content now_id now_ts d) ↔ evaluable d = true.
Proof.
  rewrite evaluate_returns_iff.
  destruct d as [| | | | |?|m];
    try (split; [intros [[? ?] _]; discriminate | discriminate]).
  unfold evaluable. rewrite andb_true_iff.
  by rewrite read_length_returns, read_links_returns.
Qed.

(** X4: when the body is fine and [asp_links] is a list, the engine raises
    what the first link without a usable [url] raises: [KeyError] for an
    object that lacks the key, [TypeError] for an entry that is not an
    object; the links after it are not looked at. *)
Theorem first_bad_link_raises (now_id now_ts : datetime)
    (m : gmap (list N) json) (body : pystr)
    (good : list json) (bad : json) (rest : list json) (e : exn) :
  body_of (JObj m) = Some body →
  m !! py "asp_links" = Some (JList (good ++ bad :: rest)) →
  forallb (λ link, bool_decide (is_Some (link_url link))) good = true →
  Py.getitem bad (py "url") = Raise e →
  mock_evaluate_content now_id now_ts (JObj m) = Raise e ∧
  (e = KeyError (py "url") ∧ (∃ o, bad = JObj o) ∨
   e = TypeError ∧ (∀ o, bad ≠ JObj o)).
Proof.
  intros Hbody Hlinks Hgood Hbad. split.
  - destruct (evaluate_reads now_id now_ts) as [build ->].
    rewrite (read_length_document _ _ Hbody), bind_Ok.
    unfold read_count, read_entries. rewrite !get_of_object, Hlinks. simpl.
    assert (Py.comprehension validate_link (good ++ bad :: rest) = Raise e)
      as ->; [|done].
    clear Hlinks. induction good as [|link good IH]; simpl.
    + unfold validate_link. by rewrite Hbad.
    + simpl in Hgood. apply andb_prop in Hgood as [Hlink Hgood].
      apply bool_decide_eq_true in Hlink as [url Hurl].
      by rewrite (validate_link_url _ _ Hurl), bind_Ok, (IH Hgood).
  - destruct bad as [| | | | |?|o]; simpl in Hbad;
      try (injection Hbad as <-; right; by split).
    destruct (o !! py "url"); [discriminate|].
    injection Hbad as <-. left. split; [done | by eexists].
Qed.

Lemma first_bad_link_raises_witness :
  mock_evaluate_content sample_now sample_now
    (sample_document 40 [sample_link "a"; JObj ∅; JNull]) =
  Raise (KeyError (py "url")).
Proof.
  refine (proj1 (first_bad_link_raises sample_now sample_now _
                   (replicate 40 120%N) [sample_link "a"] (JObj ∅) [JNull]
                   (KeyError (py "url")) _ _ _ _)); by vm_compute.
Defined.

(** ** What the scores can be *)

(** X5: [seo_optimization] never reaches its cap of 15: in every report it
    is [total // 8], which is at most 12. *)
Theorem seo_optimization_below_cap now_id now_ts d r :
  mock_evaluate_content now_id now_ts d = Ok r →
  seo_optimization (detailed_scores r) = total (overall_score r) `div` 8 ∧
  0 ≤ seo_optimization (detailed_scores r) ≤ 12.
Proof.
  intros Hr.
  destruct (evaluate_scored _ _ _ _ Hr) as (n & k & Hn & Hk & Ho & Hd & _).
  rewrite Ho, Hd. simpl.
  pose proof (base_score_range n Hn). pose proof (link_score_range k Hk).
  set (t := Z.min 80 (n `div` 20) + Z.min 20 (k * 5)) in *.
  assert (0 ≤ t `div` 8 ≤ 12) by (Z.div_mod_to_equations; lia).
  lia.
Qed.

Lemma seo_optimization_below_cap_witness :
  ∃ r, mock_evaluate_content sample_now sample_now
         (sample_document 2000 [sample_link "u"]) = Ok r ∧
       seo_optimization (detailed_scores r) ≤ 12.
Proof.
  eexists. split; [vm_compute; reflexivity|].
  refine (proj2 (proj2
    (seo_optimization_below_cap sample_now sample_now
       (sample_document 2000 [sample_link "u"]) _ _))).
  vm_compute. reflexivity.
Defined.

(** X6: the eight detailed scores of a report add up to at least 12 and at
    most 114. *)
Theorem detailed_sum_range now_id now_ts d r :
  mock_evaluate_content now_id now_ts d = Ok r →
  12 ≤ detailed_sum (detailed_scores r) ≤ 114.
Proof.
  intros Hr.
  destruct (evaluate_scored _ _ _ _ Hr) as (n & k & Hn & Hk & _ & Hd & _).
  rewrite Hd. unfold detailed_sum. simpl.
  pose proof (base_score_range n Hn). pose proof (link_score_range k Hk).
  set (t := Z.min 80 (n `div` 20) + Z.min 20 (k * 5)) in *.
  assert (0 ≤ t `div` 8 ≤ 12) by (Z.div_mod_to_equations; lia).
  assert (0 ≤ n `div` 50) by (apply Z.div_pos; lia).
  assert (0 ≤ n `div` 40) by (apply Z.div_pos; lia).
  lia.
Qed.

Lemma detailed_sum_range_witness :
  ∃ r, mock_evaluate_content sample_now sample_now (sample_document 0 []) = Ok r ∧
       12 ≤ detailed_sum (detailed_scores r) ≤ 114.
Proof.
  eexists. split; [vm_compute; reflexivity|].
  refine (detailed_sum_range sample_now sample_now (sample_document 0 []) _ _).
  vm_compute. reflexivity.
Defined.

(** X7: a document is graded EXCELLENT, with the total 100, exactly when its
    body has at least 1600 characters and it has at least four links. *)
Theorem excellent_iff_1600_and_4 now_id now_ts d body links :
  body_of d = Some body → links_of d = Some links →
  ∃ r, mock_evaluate_content now_id now_ts d = Ok r ∧
       (grade (overall_score r) = EXCELLENT ↔
        (1600 ≤ length body ∧ 4 ≤ length links)%nat) ∧
       (total (overall_score r) = 100 ↔
        (1600 ≤ length body ∧ 4 ≤ length links)%nat).
Proof.
  intros Hbody Hlinks.
  destruct (evaluate_document now_id now_ts d body links Hbody Hlinks)
    as (r & Hr & (Ho & _) & _).
  exists r. split; [done|]. rewrite Ho. simpl.
  set (n := Z.of_nat (length body)). set (k := Z.of_nat (length links)).
  assert (0 ≤ n) by lia. assert (0 ≤ k) by lia.
  set (t := Z.min 80 (n `div` 20) + Z.min 20 (k * 5)).
  assert (t = 100 ↔ 1600 ≤ n ∧ 4 ≤ k) as Ht
    by (subst t; Z.div_mod_to_equations; lia).
  assert (t ≤ 100) by (subst t; lia).
  split; [|lia].
  destruct (grade_of_cases t) as [[? ->]|[[? ->]|[[? ->]|[[? ->]|[? ->]]]]];
    split; try done; lia.
Qed.

Lemma excellent_iff_1600_and_4_witness :
  ∃ r, mock_evaluate_content sample_now sample_now
         (sample_document 1600
            [sample_link "a"; sample_link "b"; sample_link "c"; sample_link "d"])
       = Ok r ∧ grade (overall_score r) = EXCELLENT.
Proof.
  destruct (excellent_iff_1600_and_4 sample_now sample_now
              (sample_document 1600
                 [sample_link "a"; sample_link "b"; sample_link "c"; sample_link "d"])
              (replicate 1600 120%N)
              [sample_link "a"; sample_link "b"; sample_link "c"; sample_link "d"])
    as (r & Hr & Hg & _); [by vm_compute | by vm_compute |].
  exists r. split; [exact Hr|]. apply Hg.
  rewrite length_replicate. simpl. lia.
Defined.

(** X8: the body alone bounds the grade: under 800 characters the grade is
    POOR however many links there are; from 1200 characters on it is never
    POOR; and without links it is GOOD from 1600 characters on and never
    EXCELLENT. *)
Theorem grade_bounds_from_body now_id now_ts d body links :
  body_of d = Some body → links_of d = Some links →
  ∃ r, mock_evaluate_content now_id now_ts d = Ok r ∧
       ((length body < 800)%nat → grade (overall_score r) = POOR) ∧
       ((1200 ≤ length body)%nat → grade (overall_score r) ≠ POOR) ∧
       (links = [] →
        (grade (overall_score r) = GOOD ↔ (1600 ≤ length body)%nat) ∧
        grade (overall_score r) ≠ EXCELLENT).
Proof.
  intros Hbody Hlinks.
  destruct (evaluate_document now_id now_ts d body links Hbody Hlinks)
    as (r & Hr & (Ho & _) & _).
  exists r. split; [done|]. rewrite Ho. simpl.
  set (n := Z.of_nat (length body)). set (k := Z.of_nat (length links)).
  assert (0 ≤ n) by lia. assert (0 ≤ k) by lia.
  set (t := Z.min 80 (n `div` 20) + Z.min 20 (k * 5)).
  assert (n < 800 → t < 60) by (subst t; Z.div_mod_to_equations; lia).
  assert (1200 ≤ n → 60 ≤ t) by (subst t; Z.div_mod_to_equations; lia).
  assert (k = 0 → t ≤ 80 ∧ (80 ≤ t ↔ 1600 ≤ n))
    by (subst t; Z.div_mod_to_equations; lia).
  assert (links = [] → k = 0) as Hnone by (by intros ->).
  clearbody t. subst n k.
  destruct (grade_of_cases t) as [[? ->]|[[? ->]|[[? ->]|[[? ->]|[? ->]]]]];
    (split; [|split]);
    try (intros Hno; specialize (Hnone Hno); split; [split|]);
    intros; try done; lia.
Qed.

Lemma grade_bounds_from_body_witness :
  ∃ r, mock_evaluate_content sample_now sample_now
         (sample_document 40 [sample_link "a"; sample_link "b"]) = Ok r ∧
       grade (overall_score r) = POOR.
Proof.
  destruct (grade_bounds_from_body sample_now sample_now
              (sample_document 40 [sample_link "a"; sample_link "b"])
              (replicate 40 120%N) [sample_link "a"; sample_link "b"])
    as (r & Hr & Hp & _); [by vm_compute | by vm_compute |].
  exists r. split; [exact Hr|]. apply Hp. rewrite length_replicate. lia.
Defined.

(** ** How the total moves with the document *)

Section TwoDocuments.

Variables (now_id now_ts now_id' now_ts' : datetime).
Variables (d d' : json) (body body' : pystr) (links links' : list json).
Hypothesis Hbody : body_of d = Some body.
Hypothesis Hlinks : links_of d = Some links.
Hypothesis Hbody' : body_of d' = Some body'.
Hypothesis Hlinks' : links_of d' = Some links'.

(** The two totals, in closed form. *)
Lemma two_totals :
  ∃ r r', mock_evaluate_content now_id now_ts d = Ok r ∧
          mock_evaluate_content now_id' now_ts' d' = Ok r' ∧
          total (overall_score r) =
            Z.min 80 (Z.of_nat (length body) `div` 20) +
            Z.min 20 (Z.of_nat (length links) * 5) ∧
          total (overall_score r') =
            Z.min 80 (Z.of_nat (length body') `div` 20) +
            Z.min 20 (Z.of_nat (length links') * 5).
Proof.
  destruct (evaluate_document now_id now_ts d body links Hbody Hlinks)
    as (r & Hr & (Ho & _) & _).
  destruct (evaluate_document now_id' now_ts' d' body' links' Hbody' Hlinks')
    as (r' & Hr' & (Ho' & _) & _).
  exists r, r'. rewrite Ho, Ho'. done.
Qed.

End TwoDocuments.

(** X9: the total never falls when the body gets longer and links are
    added; it no longer rises once the body has 1600 characters and there
    are four links. *)
Theorem total_monotone_and_saturating now_id now_ts now_id' now_ts'
    d d' body body' links links' :
  body_of d = Some body → links_of d = Some links →
  body_of d' = Some body' → links_of d' = Some links' →
  (length body ≤ length body')%nat → (length links ≤ length links')%nat →
  ∃ r r', mock_evaluate_content now_id now_ts d = Ok r ∧
          mock_evaluate_content now_id' now_ts' d' = Ok r' ∧
          total (overall_score r) ≤ total (overall_score r') ∧
          ((1600 ≤ length body)%nat → (4 ≤ length links)%nat →
           total (overall_score r) = total (overall_score r')).
Proof.
  intros Hb Hl Hb' Hl' Hn Hk.
  destruct (two_totals now_id now_ts now_id' now_ts' d d' body body' links links'
              Hb Hl Hb' Hl') as (r & r' & Hr & Hr' & Ht & Ht').
  exists r, r'. split; [done|]. split; [done|]. rewrite Ht, Ht'.
  split; [|intros ? ?]; Z.div_mod_to_equations; lia.
Qed.

Lemma total_monotone_and_saturating_witness :
  ∃ r r', mock_evaluate_content sample_now sample_now
            (sample_document 40 []) = Ok r ∧
          mock_evaluate_content sample_now sample_now
            (sample_document 400 [sample_link "a"]) = Ok r' ∧
          total (overall_score r) ≤ total (overall_score r').
Proof.
  destruct (total_monotone_and_saturating
              sample_now sample_now sample_now sample_now
              (sample_document 40 []) (sample_document 400 [sample_link "a"])
              (replicate 40 120%N) (replicate 400 120%N) [] [sample_link "a"])
    as (r & r' & Hr & Hr' & Hle & _);
    [by vm_compute | by vm_compute | by vm_compute | by vm_compute
    | rewrite !length_replicate; lia | simpl; lia |].
  exists r, r'. split; [exact Hr|]. split; [exact Hr' | exact Hle].
Defined.

(** X10: with as many links, twenty more characters on a body of fewer than
    1600 raise the total strictly; with bodies of the same length, one more
    link on fewer than four does. *)
Theorem total_strictly_increases now_id now_ts now_id' now_ts'
    d d' body body' links links' :
  body_of d = Some body → links_of d = Some links →
  body_of d' = Some body' → links_of d' = Some links' →
  ((length body + 20 ≤ length body' ∧ length body < 1600 ∧
    length links = length links') ∨
   (length links < length links' ∧ length links < 4 ∧
    length body = length body'))%nat →
  ∃ r r', mock_evaluate_content now_id now_ts d = Ok r ∧
          mock_evaluate_content now_id' now_ts' d' = Ok r' ∧
          total (overall_score r) < total (overall_score r').
Proof.
  intros Hb Hl Hb' Hl' Hcases.
  destruct (two_totals now_id now_ts now_id' now_ts' d d' body body' links links'
              Hb Hl Hb' Hl') as (r & r' & Hr & Hr' & Ht & Ht').
  exists r, r'. split; [done|]. split; [done|]. rewrite Ht, Ht'.
  destruct Hcases as [(? & ? & ->)|(? & ? & ->)];
    Z.div_mod_to_equations; lia.
Qed.

Lemma total_strictly_increases_witness :
  ∃ r r', mock_evaluate_content sample_now sample_now
            (sample_document 13 [sample_link "test"]) = Ok r ∧
          mock_evaluate_content sample_now sample_now
            (sample_document 1800 [sample_link "test"]) = Ok r' ∧
          total (overall_score r) < total (overall_score r').
Proof.
  apply (total_strictly_increases sample_now sample_now sample_now sample_now
           (sample_document 13 [sample_link "test"])
           (sample_document 1800 [sample_link "test"])
           (replicate 13 120%N) (replicate 1800 120%N)
           [sample_link "test"] [sample_link "test"]);
    [by vm_compute | by vm_compute | by vm_compute | by vm_compute |].
  left. rewrite !length_replicate. simpl. lia.
Defined.

(** * Audit ids and timestamps *)

Lemma digits_are_digits width n : Forall is_digit (digits width n).
Proof.
  revert n. induction width as [|w IH]; intros n; simpl; [constructor|].
  apply Forall_app. split; [apply IH|]. apply Forall_singleton.
  unfold is_digit. pose proof (N.mod_upper_bound n 10 ltac:(lia)) as H.
  revert H. generalize (n `mod` 10)%N. intros c Hc. lia.
Qed.

(** Numbers that fit in [width] digits are told apart by them. *)
Lemma digits_inj width n n' :
  (n < 10 ^ N.of_nat width)%N → (n' < 10 ^ N.of_nat width)%N →
  digits width n = digits width n' → n = n'.
Proof.
  revert n n'. induction width as [|w IH]; intros n n' Hn Hn' H.
  - simpl in Hn, Hn'. lia.
  - simpl in H. apply app_inj_tail in H as [Hhigh Hlow].
    rewrite Nat2N.inj_succ, N.pow_succ_r' in Hn, Hn'.
    assert (n / 10 = n' / 10)%N as Hq.
    { apply IH; [| |done]; apply N.Div0.div_lt_upper_bound; lia. }
    assert (n mod 10 = n' mod 10)%N as Hr by (by apply N.add_cancel_l in Hlow).
    rewrite (N.div_mod n 10), (N.div_mod n' 10) by lia. by rewrite Hq, Hr.
Qed.

Lemma plausible_sample_now : plausible sample_now.
Proof. unfold plausible, sample_now. simpl. lia. Qed.

(** X11: at a clock reading with a four-digit year, the audit id has 20
    characters: the prefix "audit_" and fourteen decimal digits. *)
Theorem audit_id_format now :
  plausible now →
  length (create_audit_id now) = 20%nat ∧
  take 6 (create_audit_id now) = py "audit_" ∧
  Forall is_digit (drop 6 (create_audit_id now)).
Proof.
  intros _. split; [apply create_audit_id_length|].
  unfold create_audit_id.
  change 6%nat with (length (py "audit_")).
  rewrite take_app_length, drop_app_length. split; [done|].
  unfold strftime_YmdHMS. rewrite !Forall_app.
  repeat split; apply digits_are_digits.
Qed.

Lemma audit_id_format_witness :
  length (create_audit_id sample_now) = 20%nat ∧
  take 6 (create_audit_id sample_now) = py "audit_" ∧
  Forall is_digit (drop 6 (create_audit_id sample_now)).
Proof. apply (audit_id_format sample_now). apply plausible_sample_now. Defined.

(** X12: two clock readings get the same audit id exactly when they agree
    down to the second; readings within one second collide, others do not. *)
Theorem audit_id_equal_iff_same_second t t' :
  plausible t → plausible t' →
  create_audit_id t = create_audit_id t' ↔
  year t = year t' ∧ month t = month t' ∧ day t = day t' ∧
  hour t = hour t' ∧ minute t = minute t' ∧ second t = second t'.
Proof.
  intros (Hy & Hm & Hd & Hh & Hmi & Hs & _) (Hy' & Hm' & Hd' & Hh' & Hmi' & Hs' & _).
  unfold create_audit_id, strftime_YmdHMS. split.
  - intros H. apply app_inv_head in H.
    repeat (apply app_inj_1 in H as [?%digits_inj H];
            [|simpl; lia..|by rewrite !length_digits]).
    apply digits_inj in H; [|simpl; lia..]. done.
  - by intros (-> & -> & -> & -> & -> & ->).
Qed.

Lemma audit_id_equal_iff_same_second_witness :
  create_audit_id sample_now =
  create_audit_id {| year := 2024; month := 3; day := 9; hour := 14;
                     minute := 5; second := 7; microsecond := 250000 |}.
Proof.
  apply (audit_id_equal_iff_same_second sample_now
           {| year := 2024; month := 3; day := 9; hour := 14;
              minute := 5; second := 7; microsecond := 250000 |});
    [apply plausible_sample_now | unfold plausible; simpl; lia | done].
Defined.

(** X13: the timestamp tells the clock reading: two readings with the same
    ISO timestamp are the same, microseconds included. *)
Theorem timestamp_determines_reading t t' :
  plausible t → plausible t' → isoformat t = isoformat t' → t = t'.
Proof.
  intros (Hy & Hm & Hd & Hh & Hmi & Hs & Hus) (Hy' & Hm' & Hd' & Hh' & Hmi' & Hs' & Hus').
  unfold isoformat. intros H.
  repeat (apply app_inj_1 in H as [?%digits_inj H];
          [apply app_inv_head in H|simpl; lia..|by rewrite !length_digits]).
  apply app_inj_1 in H as [?%digits_inj H];
    [|simpl; lia..|by rewrite !length_digits].
  assert (microsecond t = microsecond t') as Hmicro.
  { destruct (N.eqb_spec (microsecond t) 0) as [Hz|Hnz],
             (N.eqb_spec (microsecond t') 0) as [Hz'|Hnz'].
    - congruence.
    - apply (f_equal length) in H. rewrite length_app, length_digits in H.
      discriminate.
    - apply (f_equal length) in H. rewrite length_app, length_digits in H.
      discriminate.
    - apply app_inv_head in H. apply digits_inj in H; [done|simpl; lia..]. }
  destruct t, t'. simpl in *. congruence.
Qed.

Lemma timestamp_determines_reading_witness :
  sample_now =
  {| year := 2024; month := 3; day := 9; hour := 14;
     minute := 5; second := 7; microsecond := 0 |}.
Proof.
  apply (timestamp_determines_reading sample_now);
    [apply plausible_sample_now | apply plausible_sample_now | reflexivity].
Defined.

(** * The command line driver *)

#[local] Arguments py : simpl never.

(** Run [main] symbolically: unfold the driver and split on everything it
    branches on. *)
Ltac unfold_main :=
  unfold main, load_schema, call_validate_input, validate_input, write_file,
    print_report, when, print, eprint, sys_exit, uncaught;
  unfold mbind, run_bind, mret, run_ret.

Ltac run_main := unfold_main; repeat (case_match; simplify_eq/=); simpl.

(** X14: with [--validate-only], when both schemas and the input load and
    the input passes its schema, the run returns normally after printing the
    one confirmation line; it writes no file, whatever [--output] says and
    whatever the engine would do with the input. *)
Theorem validate_only_confirms (w : World) (args : Args) (c : Console)
    (input_schema output_schema input_data data' schema' : json) :
  arg_validate_only args = true →
  load_json w (input_schema_path w) = LoadedJson input_schema →
  load_json w (output_schema_path w) = LoadedJson output_schema →
  load_json w (arg_input args) = LoadedJson input_data →
  jsonschema_validate w input_data input_schema = (Ok (), data', schema') →
  (main w (Parsed args) c).1 = Done () ∧
  stdout (main w (Parsed args) c).2 =
    stdout c ++ [py "Validation complete - input is valid"] ∧
  files (main w (Parsed args) c).2 = files c.
Proof.
  intros Hvo Hin Hout Hdata Hlib. unfold_main.
  rewrite Hin, Hout, Hdata, Hlib, Hvo. by destruct (arg_verbose args).
Qed.

Lemma validate_only_confirms_witness :
  (main (sample_world (LoadedJson (JObj ∅)) (LoadedJson JNull))
        (Parsed (sample_args true)) empty_console).1 = Done ().
Proof.
  refine (proj1 (validate_only_confirms
    (sample_world (LoadedJson (JObj ∅)) (LoadedJson JNull))
    (sample_args true) empty_console (JObj ∅) (JObj ∅) JNull JNull (JObj ∅)
    _ _ _ _ _)); reflexivity.
Defined.

(** X15: when [main] does not return normally, a [sys.exit] has status 0
    only after argparse wrote the help text to standard output, status 2
    only for a command line that does not parse, and status 1 otherwise;
    the help text apart, nothing was printed to standard output; and no file
    was written, unless [json.dump] raised after the output file had been
    opened, which leaves that file with what had been written by then. *)
Theorem failed_run_status_and_output (w : World) (cmd : CommandLine)
    (c : Console) (h : Halt) :
  (main w cmd c).1 = Halted h →
  match h with
  | SystemExit code =>
      (code = 0 ∧ ∃ help, cmd = HelpRequested help ∧
                   stdout (main w cmd c).2 = stdout c ++ [help]) ∨
      (code = 2 ∧ (∃ usage message, cmd = Unparsable usage message) ∧
       stdout (main w cmd c).2 = stdout c) ∨
      (code = 1 ∧ (∃ args, cmd = Parsed args) ∧
       stdout (main w cmd c).2 = stdout c)
  | _ => (∃ args, cmd = Parsed args) ∧ stdout (main w cmd c).2 = stdout c
  end ∧
  (files (main w cmd c).2 = files c ∨
   ∃ args path result written name,
     cmd = Parsed args ∧ arg_output args = Some path ∧
     open_for_writing w path = None ∧
     dump_raises w result = Some (written, name) ∧
     h = UncaughtOther name ∧
     files (main w cmd c).2 = files c ++ [(path, written)]).
Proof.
  revert h. destruct cmd as [args|help|usage message].
  - run_main; intros h' Hh; simplify_eq/=;
      (split; [first [ by split; [eexists | ]
                     | by right; right; split; [|split; [eexists|]] ]
              | first [ by left | right; by do 5 eexists ] ]).
  - unfold_main. simpl. intros h' [= <-]. split; [|by left].
    left. split; [done|]. by eexists.
  - unfold_main. simpl. intros h' [= <-]. split; [|by left].
    right; left. split; [done|]. split; [by do 2 eexists | done].
Qed.

Lemma failed_run_status_and_output_witness :
  stdout (main (sample_world (FileNotFoundError (py "no such file"))
                             (LoadedJson JNull))
               (Parsed (sample_args false)) empty_console).2 = [].
Proof.
  pose proof (failed_run_status_and_output
    (sample_world (FileNotFoundError (py "no such file")) (LoadedJson JNull))
    (Parsed (sample_args false)) empty_console (SystemExit 1)
    ltac:(vm_compute; reflexivity)) as [[(? & _)|[(? & _)|(_ & _ & Hout)]] _];
    [discriminate | discriminate | exact Hout].
Defined.

(** The quiet error stream is the loud one with some lines left out. *)
Ltac solve_sublist :=
  repeat first
    [ reflexivity
    | apply sublist_app; [|reflexivity]
    | apply sublist_inserts_r ].

(** X16: [--verbose] changes neither how the run ends, nor standard output,
    nor the files written; it only adds lines to the error stream. *)
Theorem verbose_only_adds_diagnostics (w : World) (c : Console)
    (input : pystr) (output : option pystr) (validate_only : bool) :
  let quiet := main w (Parsed {| arg_input := input; arg_output := output;
                                 arg_verbose := false;
                                 arg_validate_only := validate_only |}) c in
  let loud := main w (Parsed {| arg_input := input; arg_output := output;
                                arg_verbose := true;
                                arg_validate_only := validate_only |}) c in
  loud.1 = quiet.1 ∧
  stdout loud.2 = stdout quiet.2 ∧
  files loud.2 = files quiet.2 ∧
  stderr quiet.2 `sublist_of` stderr loud.2.
Proof.
  cbv zeta. run_main; repeat split; try done; solve_sublist.
Qed.

(** X17: a run without [--validate-only] that returns normally has loaded
    both schemas and the input, the input has passed the input schema, the
    engine has returned a report and the report has passed the output
    schema; the serialized report went either to the file named by a
    non-empty [--output], or to standard output, never to both. *)
Theorem report_delivered_after_both_validations (w : World) (args : Args)
    (c : Console) :
  arg_validate_only args = false →
  (main w (Parsed args) c).1 = Done () →
  ∃ input_schema output_schema input_data data' schema' r result' schema'',
    load_json w (input_schema_path w) = LoadedJson input_schema ∧
    load_json w (output_schema_path w) = LoadedJson output_schema ∧
    load_json w (arg_input args) = LoadedJson input_data ∧
    jsonschema_validate w input_data input_schema = (Ok (), data', schema') ∧
    mock_evaluate_content (clock_id w) (clock_ts w) data' = Ok r ∧
    jsonschema_validate w (report_json r) output_schema =
      (Ok (), result', schema'') ∧
    ((∃ ch path, arg_output args = Some (ch :: path) ∧
                 open_for_writing w (ch :: path) = None ∧
                 files (main w (Parsed args) c).2 =
                   files c ++ [(ch :: path, json_dumps w result')] ∧
                 stdout (main w (Parsed args) c).2 = stdout c) ∨
     ((arg_output args = None ∨ arg_output args = Some []) ∧
      stdout (main w (Parsed args) c).2 = stdout c ++ [json_dumps w result'] ∧
      files (main w (Parsed args) c).2 = files c)).
Proof.
  intros Hvo. unfold_main. rewrite Hvo.
  repeat (case_match; simplify_eq/=); intros Hdone; simplify_eq/=;
    repeat match goal with u : () |- _ => destruct u end;
    do 8 eexists; (repeat split; [done..|]); eauto 10.
Qed.

Lemma report_delivered_after_both_validations_witness :
  stdout (main (sample_world (LoadedJson (JObj ∅)) (LoadedJson (JObj ∅)))
               (Parsed (sample_args false)) empty_console).2 ≠ [].
Proof.
  destruct (report_delivered_after_both_validations
              (sample_world (LoadedJson (JObj ∅)) (LoadedJson (JObj ∅)))
              (sample_args false) empty_console)
    as (? & ? & ? & ? & ? & ? & result' & ? & _ & _ & _ & _ & _ & _ & Hout);
    [reflexivity | vm_compute; reflexivity |].
  destruct Hout as [(ch & path & Ho & _)|(_ & -> & _)]; [discriminate|].
  discriminate.
Defined.

(** X18: once the command line has parsed, [main] without [--verbose]
    writes at most one message to the error stream before it returns, exits
    or raises, and none when it returns normally. *)
Theorem quiet_run_prints_at_most_one_diagnostic (w : World) (args : Args)
    (c : Console) :
  arg_verbose args = false →
  (∃ lines, stderr (main w (Parsed args) c).2 = stderr c ++ lines ∧
            (length lines ≤ 1)%nat) ∧
  ((main w (Parsed args) c).1 = Done () → stderr (main w (Parsed args) c).2 = stderr c).
Proof.
  intros Hq. unfold_main. rewrite Hq.
  repeat (case_match; simplify_eq/=); (split; [|try done]);
    first [ by exists []; split; [by rewrite app_nil_r | simpl; lia]
          | by eexists [_]; split; [reflexivity | simpl; lia] ].
Qed.

Lemma quiet_run_prints_at_most_one_diagnostic_witness :
  stderr (main (sample_world (LoadedJson (JObj ∅)) (LoadedJson (JObj ∅)))
               (Parsed (sample_args false)) empty_console).2 = [].
Proof.
  refine (proj2 (quiet_run_prints_at_most_one_diagnostic
    (sample_world (LoadedJson (JObj ∅)) (LoadedJson (JObj ∅)))
    (sample_args false) empty_console _) _);
    [reflexivity | vm_compute; reflexivity].
Defined.

(** X19: nothing catches an exception of the engine: when the input passes
    its schema and the engine raises on it, the run ends with that
    exception, not with [sys.exit(1)], and delivers nothing. *)
Theorem engine_exception_is_uncaught (w : World) (args : Args) (c : Console)
    (input_schema output_schema input_data data' schema' : json) (e : exn) :
  arg_validate_only args = false →
  load_json w (input_schema_path w) = LoadedJson input_schema →
  load_json w (output_schema_path w) = LoadedJson output_schema →
  load_json w (arg_input args) = LoadedJson input_data →
  jsonschema_validate w input_data input_schema = (Ok (), data', schema') →
  mock_evaluate_content (clock_id w) (clock_ts w) data' = Raise e →
  (main w (Parsed args) c).1 = Halted (Uncaught e) ∧
  stdout (main w (Parsed args) c).2 = stdout c ∧
  files (main w (Parsed args) c).2 = files c.
Proof.
  intros Hvo Hin Hout Hdata Hlib Heval. unfold_main.
  rewrite Hin, Hout, Hdata, Hlib, Hvo. simpl. rewrite Heval.
  by destruct (arg_verbose args).
Qed.

Lemma engine_exception_is_uncaught_witness :
  (main (sample_world (LoadedJson (JObj ∅))
                      (LoadedJson (JObj (<[py "content" := JNull]> ∅))))
        (Parsed (sample_args false)) empty_console).1 =
  Halted (Uncaught AttributeError).
Proof.
  refine (proj1 (engine_exception_is_uncaught
    (sample_world (LoadedJson (JObj ∅))
                  (LoadedJson (JObj (<[py "content" := JNull]> ∅))))
    (sample_args false) empty_console (JObj ∅) (JObj ∅)
    (JObj (<[py "content" := JNull]> ∅)) (JObj (<[py "content" := JNull]> ∅))
    (JObj ∅) AttributeError _ _ _ _ _ _)); vm_compute; reflexivity.
Defined.

(** X20: when the input fails its schema the run ends with status 1; its
    last line on the error stream is "Input validation error: " and the
    message, and the engine is not run: nothing is printed to standard
    output and no file is written, with or without [--validate-only]. *)
Theorem rejected_input_exits_1 (w : World) (args : Args) (c : Console)
    (input_schema output_schema input_data data' schema' : json)
    (message : pystr) :
  load_json w (input_schema_path w) = LoadedJson input_schema →
  load_json w (output_schema_path w) = LoadedJson output_schema →
  load_json w (arg_input args) = LoadedJson input_data →
  jsonschema_validate w input_data input_schema =
    (Raise (ValidationError message), data', schema') →
  (main w (Parsed args) c).1 = Halted (SystemExit 1) ∧
  last (stderr (main w (Parsed args) c).2) =
    Some (py "Input validation error: " ++ message) ∧
  stdout (main w (Parsed args) c).2 = stdout c ∧
  files (main w (Parsed args) c).2 = files c.
Proof.
  intros Hin Hout Hdata Hlib. unfold_main.
  rewrite Hin, Hout, Hdata, Hlib. simpl.
  destruct (arg_verbose args); simpl; by rewrite last_snoc.
Qed.

Lemma rejected_input_exits_1_witness :
  let w := {| input_schema_path := py "in.schema";
              output_schema_path := py "out.schema";
              load_json := λ _, LoadedJson JNull;
              open_for_writing := λ _, None;
              jsonschema_validate := λ d s,
                (Raise (ValidationError (py "None is not of type 'object'")), d, s);
              json_dumps := λ _, [];
              dump_raises := λ _, None;
              print_raises := λ _, None;
              clock_id := sample_now; clock_ts := sample_now |} in
  (main w (Parsed (sample_args false)) empty_console).1 =
  Halted (SystemExit 1).
Proof.
  intros w.
  refine (proj1 (rejected_input_exits_1 w (sample_args false) empty_console
    JNull JNull JNull JNull JNull (py "None is not of type 'object'")
    _ _ _ _)); reflexivity.
Defined.

(** X21: the output schema is loaded before the input is looked at: when it
    is missing or is not JSON the run ends with status 1 and the line
    "Error loading schema", the path and the error, even with
    [--validate-only] and whatever the input file holds. *)
Theorem missing_output_schema_exits_1 (w : World) (args : Args) (c : Console)
    (input_schema : json) (e : pystr) :
  load_json w (input_schema_path w) = LoadedJson input_schema →
  load_json w (output_schema_path w) = FileNotFoundError e ∨
  load_json w (output_schema_path w) = JSONDecodeError e →
  (main w (Parsed args) c).1 = Halted (SystemExit 1) ∧
  last (stderr (main w (Parsed args) c).2) =
    Some (py "Error loading schema " ++ output_schema_path w ++ py ": " ++ e) ∧
  stdout (main w (Parsed args) c).2 = stdout c ∧
  files (main w (Parsed args) c).2 = files c.
Proof.
  intros Hin Hout. unfold_main. rewrite Hin.
  destruct Hout as [-> | ->]; destruct (arg_verbose args); simpl;
    by rewrite last_snoc.
Qed.

Lemma missing_output_schema_exits_1_witness :
  let w := {| input_schema_path := py "in.schema";
              output_schema_path := py "out.schema";
              load_json := λ path,
                if decide (path = py "out.schema")
                then FileNotFoundError (py "No such file")
                else LoadedJson (JObj ∅);
              open_for_writing := λ _, None;
              jsonschema_validate := accept_everything;
              json_dumps := λ _, [];
              dump_raises := λ _, None;
              print_raises := λ _, None;
              clock_id := sample_now; clock_ts := sample_now |} in
  (main w (Parsed (sample_args true)) empty_console).1 = Halted (SystemExit 1).
Proof.
  intros w.
  refine (proj1 (missing_output_schema_exits_1 w (sample_args true)
    empty_console (JObj ∅) (py "No such file") _ _));
    [vm_compute; reflexivity | left; vm_compute; reflexivity].
Defined.

(** X24: only [ValidationError] is caught around the check of the input:
    when [jsonschema.validate] raises anything else there (a [SchemaError]
    for a schema that is not valid), [main] ends with that exception
    uncaught; it prints no diagnostic of its own, nothing to standard
    output, and writes no file. *)
Theorem package_exception_is_uncaught (w : World) (args : Args) (c : Console)
    (input_schema output_schema input_data data' schema' : json) (e : exn) :
  load_json w (input_schema_path w) = LoadedJson input_schema →
  load_json w (output_schema_path w) = LoadedJson output_schema →
  load_json w (arg_input args) = LoadedJson input_data →
  jsonschema_validate w input_data input_schema = (Raise e, data', schema') →
  (∀ message, e ≠ ValidationError message) →
  (main w (Parsed args) c).1 = Halted (Uncaught e) ∧
  stderr (main w (Parsed args) c).2 =
    stderr c ++
    (if arg_verbose args
     then [py "Loading input schema from: " ++ input_schema_path w;
           py "Loading output schema from: " ++ output_schema_path w]
     else []) ∧
  stdout (main w (Parsed args) c).2 = stdout c ∧
  files (main w (Parsed args) c).2 = files c.
Proof.
  intros Hin Hout Hdata Hlib Hne. unfold_main.
  rewrite Hin, Hout, Hdata, Hlib.
  destruct e; try (by destruct (Hne message));
    destruct (arg_verbose args); simpl;
    by rewrite <- ?app_assoc, ?app_nil_r.
Qed.

Lemma package_exception_is_uncaught_witness :
  let w := {| input_schema_path := py "in.schema";
              output_schema_path := py "out.schema";
              load_json := λ _, LoadedJson (JObj ∅);
              open_for_writing := λ _, None;
              jsonschema_validate := λ d s,
                (Raise (SchemaError (py "the schema is not valid")), d, s);
              json_dumps := λ _, [];
              dump_raises := λ _, None;
              print_raises := λ _, None;
              clock_id := sample_now; clock_ts := sample_now |} in
  (main w (Parsed (sample_args false)) empty_console).1 =
  Halted (Uncaught (SchemaError (py "the schema is not valid"))).
Proof.
  intros w.
  refine (proj1 (package_exception_is_uncaught w (sample_args false)
    empty_console (JObj ∅) (JObj ∅) (JObj ∅) (JObj ∅) (JObj ∅)
    (SchemaError (py "the schema is not valid")) _ _ _ _ _));
    try reflexivity. discriminate.
Defined.

(** * What of the report does not depend on the document *)

(** X22: every report carries the same single suggestion (category "seo",
    severity minor, 3 points) and the same evaluator version, model name and
    processing time, whatever the document. *)
Theorem fixed_parts_of_the_report now_id now_ts d r :
  mock_evaluate_content now_id now_ts d = Ok r →
  improvements r =
    [ {| category := py "seo"; severity := minor;
         description := py "Consider adding more targeted keywords";
         impact_points := 3 |} ] ∧
  evaluator_version (metadata r) = py "1.0.0" ∧
  ai_model_used (metadata r) = py "mock-evaluator" ∧
  processing_time_seconds (metadata r) = 12 # 10.
Proof.
  unfold mock_evaluate_content. intros H.
  step H content Hcontent. step H body Hbody. step H n Hn.
  step H asp_links Hlinks. step H k Hk. cbv zeta in H.
  step H asp_links' Hlinks'. step H links Hiter. step H entries Hentries.
  by injection H as <-.
Qed.

Lemma fixed_parts_of_the_report_witness :
  ∃ r, mock_evaluate_content sample_now sample_now (sample_document 0 []) = Ok r ∧
       length (improvements r) = 1%nat.
Proof.
  eexists. split; [vm_compute; reflexivity|].
  rewrite (proj1 (fixed_parts_of_the_report sample_now sample_now
                    (sample_document 0 []) _ ltac:(vm_compute; reflexivity))).
  reflexivity.
Defined.

(** X23: the clock decides only [audit_id] and [timestamp]: at other clock
    readings the engine raises the same exception, or returns a report with
    the same scores, suggestions, link results and meta data, whose id and
    timestamp are those of the new readings. *)
Theorem clock_decides_only_id_and_timestamp
    (now_id now_ts now_id' now_ts' : datetime) (d : json) :
  match mock_evaluate_content now_id now_ts d,
        mock_evaluate_content now_id' now_ts' d with
  | Ok r, Ok r' =>
      overall_score r' = overall_score r ∧
      detailed_scores r' = detailed_scores r ∧
      improvements r' = improvements r ∧
      link_validation_results r' = link_validation_results r ∧
      metadata r' = metadata r ∧
      audit_id r' = create_audit_id now_id' ∧
      timestamp r' = isoformat now_ts'
  | Raise e, Raise e' => e = e'
  | _, _ => False
  end.
Proof.
  unfold mock_evaluate_content.
  destruct (Py.get d (py "content") (JObj ∅)) as [content|e]; [|done].
  rewrite !bind_Ok.
  destruct (Py.get content (py "body") (JStr [])) as [body|e]; [|done].
  rewrite !bind_Ok.
  destruct (Py.len body) as [n|e]; [|done]. rewrite !bind_Ok.
  destruct (Py.get d (py "asp_links") (JList [])) as [asp_links|e]; [|done].
  rewrite !bind_Ok.
  destruct (Py.len asp_links) as [k|e]; [|done]. rewrite !bind_Ok. cbv zeta.
  destruct (Py.iter asp_links) as [links|e]; [|done]. rewrite !bind_Ok.
  destruct (Py.comprehension validate_link links) as [es|e]; [|done].
  rewrite !bind_Ok. done.
Qed.
